(** * mpesago: the session-authenticated request pipeline of [service.go]

    A shallow embedding of [package mpesa], file [service.go]: the client
    constructor [NewClient], the gateway operations [SessionID], [PushAsync],
    [Disburse], [QueryTx] and the webhook entry point [CallbackServeHTTP].

    Go values are modelled as follows.
    - [error] is [option GoError]; [None] is [nil].
    - [int64] is [Z]; the one arithmetic operation of the file, the product
      [time.Duration(n) * time.Minute], wraps around at 64 bits ([wrap64]).
    - [time.Time] is an instant in nanoseconds ([Z]); [Time.Add] is addition
      (Go saturates only hundreds of billions of years away from the epoch).
    - a pointer to [Config] is an address into a store [gmap loc Config.t]; an address
      that is not in the store is [nil], and reading through it panics.
    - the other pointer and interface fields of [Client] are [option]s,
      [None] being [nil].
    - a call whose answer the client does not determine (the clock, the
      randomised RSA encryption, the HTTP executor, the receiver and
      replier, the caller's callback handler, standard output) is a node
      [Vis] of a program tree [Prog]; [run] executes a tree against a
      handler, a stub of the outside world, and records the calls with
      their answers in a trace.
    - one goroutine uses the client at a time, and the outside world does
      not call back into the client while it answers a call.
    - a call always comes back with an answer: a collaborator that panics
      or never returns is not modelled. The only panics are those of the
      code of [service.go] itself, [panic("implement me")] and the reads
      through a [nil] pointer or interface. *)

From Stdlib Require Import ZArith Lia List.
From stdpp Require Import base strings gmap list.

Local Open Scope string_scope.
Local Open Scope list_scope.
Local Open Scope Z_scope.

Abbreviation loc := positive (only parsing).

(** ** Go built-ins used by the file *)

(** [error] values: [errors.New]/[fmt.Errorf] without [%w] give an
    [errorString], [fmt.Errorf] with [%w] gives a [wrapError]. *)
Inductive GoError : Type :=
| errorString (s : string)
| wrapError (msg : string) (err : GoError).

Abbreviation error := (option GoError) (only parsing).

Definition Error (e : GoError) : string :=
  match e with
  | errorString s => s
  | wrapError msg _ => msg
  end.

(** [fmt.Errorf(prefix + "%s", arg)] *)
Definition fmt_Errorf_s (prefix arg : string) : GoError :=
  errorString (prefix +:+ arg).

(** [fmt.Errorf(prefix + "%w", err)] *)
Definition fmt_Errorf_w (prefix : string) (err : GoError) : GoError :=
  wrapError (prefix +:+ Error err) err.

(** Signed 64-bit wrap-around. *)
Definition wrap64 (z : Z) : Z := (z + 2 ^ 63) mod 2 ^ 64 - 2 ^ 63.

Definition int64_range (z : Z) : Prop := - 2 ^ 63 <= z < 2 ^ 63.

Abbreviation Time := Z (only parsing).
Abbreviation Duration := Z (only parsing).

(** [time.Minute], in nanoseconds. *)
Definition time_Minute : Duration := 60000000000.

(** [a * b] on [time.Duration] (an [int64]). *)
Definition Duration_mul (a b : Duration) : Duration := wrap64 (a * b).

(** [t.Add(d)] *)
Definition Time_Add (t : Time) (d : Duration) : Time := t + d.

(** Result of a call: it returns, or it panics. *)
Inductive Outcome (A : Type) : Type :=
| Returned (a : A)
| Panicked (msg : string).
Arguments Returned {A} a.
Arguments Panicked {A} msg.

Definition nil_dereference : string :=
  "runtime error: invalid memory address or nil pointer dereference".

(** ** Declarations of the package and of its imports that live outside
    [service.go]

    These types are declared in other files of the package ([Market],
    [Platform], the request and response structs, [PushCallbackHandler]) or
    in the imported packages [base] and [net/http]. *)
Class Decls : Type := {
  Market : Type;
  Platform : Type;
  Request : Type;
  Payload : Type;
  SessionResponse : Type;
  PushAsyncResponse : Type;
  DisburseResponse : Type;
  QueryTxParams : Type;
  QueryTxResponse : Type;
  PushCallbackRequest : Type;
  PushCallbackResponse : Type;
  PushCallbackHandler : Type;
  base_Client : Type;
  base_Request : Type;
  base_Response : Type;
  base_Replier : Type;
  base_Receiver : Type;
  base_Logger : Type;
  http_ResponseWriter : Type;
  http_Request : Type;
}.

(** [base.RequestOption] and [base.ResponseOption], as built in this file. *)
Inductive base_RequestOption : Type :=
| base_WithRequestHeaders (headers : gmap string string).

Inductive base_ResponseOption : Type :=
| base_WithMoreResponseHeaders (headers : gmap string string).

(** The operation kinds ([requestType] constants of the package). *)
Module requestType.
Inductive t : Type := sessionID | pushPay | disburse | query.
End requestType.

Module Endpoints.
Record t : Type := mk {
  AuthEndpoint : string;
  PushEndpoint : string;
  DisburseEndpoint : string;
  QueryEndpoint : string;
}.
End Endpoints.

Module Config.
Record t `{Decls} : Type := mk {
  Endpoints : option Endpoints.t;
  Name : string;
  Version : string;
  Description : string;
  BasePath : string;
  Market : Market;
  Platform : Platform;
  APIKey : string;
  PublicKey : string;
  SessionLifetimeMinutes : Z;
  ServiceProvideCode : string;
  TrustedSources : list string;
}.

(** [conf.BasePath = p] *)
Definition set_BasePath `{Decls} (p : string) (conf : t) : t :=
  mk _ (Endpoints conf) (Name conf) (Version conf) (Description conf) p
     (Market conf) (Platform conf) (APIKey conf) (PublicKey conf)
     (SessionLifetimeMinutes conf) (ServiceProvideCode conf)
     (TrustedSources conf).
End Config.

Module requestAdapter.
Record t `{Decls} : Type := mk {
  platform : Platform;
  market : Market;
  serviceProviderCode : string;
}.
End requestAdapter.

Module Client.
Record t `{Decls} : Type := mk {
  Conf : loc;
  base : option base_Client;
  encryptedAPIKey : option string;
  sessionID : option string;
  sessionExpiration : Time;
  pushCallbackFunc : option PushCallbackHandler;
  requestAdapter : option requestAdapter.t;
  rp : option base_Replier;
  rv : option base_Receiver;
}.

Section setters.
Context `{Decls}.
(** [c.sessionExpiration = exp] and the other field assignments *)
Definition set_sessionExpiration (exp : Time) (c : t) : t :=
  mk _ (Conf c) (base c) (encryptedAPIKey c) (sessionID c) exp
     (pushCallbackFunc c) (requestAdapter c) (rp c) (rv c).
Definition set_sessionID (id : option string) (c : t) : t :=
  mk _ (Conf c) (base c) (encryptedAPIKey c) id (sessionExpiration c)
     (pushCallbackFunc c) (requestAdapter c) (rp c) (rv c).
Definition set_requestAdapter (ra : option requestAdapter.t) (c : t) : t :=
  mk _ (Conf c) (base c) (encryptedAPIKey c) (sessionID c)
     (sessionExpiration c) (pushCallbackFunc c) ra (rp c) (rv c).
Definition set_rp (r : option base_Replier) (c : t) : t :=
  mk _ (Conf c) (base c) (encryptedAPIKey c) (sessionID c)
     (sessionExpiration c) (pushCallbackFunc c) (requestAdapter c) r (rv c).
Definition set_rv (r : option base_Receiver) (c : t) : t :=
  mk _ (Conf c) (base c) (encryptedAPIKey c) (sessionID c)
     (sessionExpiration c) (pushCallbackFunc c) (requestAdapter c) (rp c) r.
End setters.
End Client.

(** A Go struct type with its zero value and, for the gateway responses,
    the business-error field [OutputErr]. *)
Class Zero (A : Type) : Type := zero : A.
Class GatewayResponse (R : Type) : Type := {
  GatewayResponse_zero :: Zero R;
  OutputErr : R -> string;
}.

(** Functions and methods declared outside [service.go] that the file
    calls and that neither read the clock nor leave the process. *)
Class Funcs `{Decls} : Type := {
  Platform_String : Platform -> string;
  Market_URLContextValue : Market -> string;
  SessionResponse_gw :: GatewayResponse SessionResponse;
  PushAsyncResponse_gw :: GatewayResponse PushAsyncResponse;
  DisburseResponse_gw :: GatewayResponse DisburseResponse;
  ID : SessionResponse -> string;
  PushCallbackRequest_zero :: Zero PushCallbackRequest;
  requestType_String : requestType.t -> string;
  (* method [adapt(requestType, Request)] of [requestAdapter], returning [interface{}] and [error] *)
  adapt : requestAdapter.t -> requestType.t -> Request -> option Payload * error;
  (* method [makeInternalRequest(requestType, payload, opts...)] of [Client] *)
  makeInternalRequest :
    Client.t -> gmap loc Config.t -> requestType.t -> option Payload ->
    list base_RequestOption -> base_Request;
  (* package base *)
  base_NewClient : base_Client;
  Logger : base_Client -> base_Logger;
  DebugMode : base_Client -> bool;
  base_NewReplier : base_Logger -> bool -> base_Replier;
  base_NewReceiver : base_Logger -> bool -> base_Receiver;
  Response_Error : base_Response -> error;
  base_NewResponse :
    Z -> PushCallbackResponse -> list base_ResponseOption -> base_Response;
}.

Section Service.
Context `{F : Funcs}.

(** ** Calls answered by the outside world *)

Inductive Call : Type -> Type :=
| time_Now : Call Time
(* [encryptKey(key, pubKey)]: RSA PKCS#1 v1.5, randomised *)
| encryptKey (key pubKey : string) : Call (string * error)
(* [c.base.Do(ctx, request, &v)], one constructor per type of [v]; the
   first component of the answer is the content of [v] after the call *)
| base_Do_session (b : base_Client) (re : base_Request) (v : SessionResponse) :
    Call (SessionResponse * option base_Response * error)
| base_Do_push (b : base_Client) (re : base_Request) (v : PushAsyncResponse) :
    Call (PushAsyncResponse * option base_Response * error)
| base_Do_disburse (b : base_Client) (re : base_Request) (v : DisburseResponse) :
    Call (DisburseResponse * option base_Response * error)
(* fmt.Printf(format, op, res) *)
| fmt_Printf (format : string) (op : string) (res : option base_Response) : Call unit
(* [c.rv.Receive(ctx, name, r, v)]; answers the content of [v] and the error *)
| Receive (rv : base_Receiver) (name : string) (r : http_Request)
    (v : PushCallbackRequest) : Call (PushCallbackRequest * error)
(* [c.pushCallbackFunc.HandleCallback(request)] *)
| HandleCallback (hd : PushCallbackHandler) (request : PushCallbackRequest) :
    Call (PushCallbackResponse * error)
(* [http.Error(w, msg, code)] *)
| http_Error (w : http_ResponseWriter) (msg : string) (code : Z) : Call unit
(* [c.rp.Reply(w, response)] *)
| Reply (rp : base_Replier) (w : http_ResponseWriter) (response : base_Response) :
    Call unit.

(** Program trees over those calls. *)
Inductive Prog (A : Type) : Type :=
| Ret (a : A)
| Vis (X : Type) (e : Call X) (k : X -> Prog A).
Arguments Ret {A} a.
Arguments Vis {A X} e k.

Fixpoint pbind {A B : Type} (p : Prog A) (f : A -> Prog B) : Prog B :=
  match p with
  | Ret a => f a
  | Vis e k => Vis e (fun x => pbind (k x) f)
  end.

(** One call with its answer. *)
Record Event : Type := Ev { ev_type : Type; ev_call : Call ev_type; ev_answer : ev_type }.
Arguments Ev {ev_type} ev_call ev_answer.

(** The outside world: a state [W] and the answer to each call. *)
Definition Handler (W : Type) : Type := forall X : Type, Call X -> W -> X * W.

Fixpoint run {W A : Type} (h : Handler W) (p : Prog A) (w : W) : A * W * list Event :=
  match p with
  | Ret a => (a, w, [])
  | Vis e k =>
      let '(x, w1) := h _ e w in
      let '(a, w2, tr) := run h (k x) w1 in
      (a, w2, Ev e x :: tr)
  end.

(** ** The state monad of the methods

    A computation over a mutable state [S] that may call out and may
    panic; a panic keeps the state reached. *)
Definition M (S A : Type) : Type := S -> Prog (Outcome A * S).

#[export] Instance M_ret {S} : MRet (M S) := fun A a s => Ret (Returned a, s).

#[export] Instance M_bind {S} : MBind (M S) := fun A B f m s =>
  pbind (m s) (fun r =>
    match r with
    | (Returned a, s1) => f a s1
    | (Panicked msg, s1) => Ret (Panicked msg, s1)
    end).

Definition panic {S A} (msg : string) : M S A := fun s => Ret (Panicked msg, s).
Definition call {S X} (e : Call X) : M S X := fun s => Vis e (fun x => Ret (Returned x, s)).
Definition get {S} : M S S := fun s => Ret (Returned s, s).
Definition put {S} (s : S) : M S unit := fun _ => Ret (Returned tt, s).

(** Reading through a pointer or interface field. *)
Definition deref {S A} (p : option A) : M S A :=
  match p with
  | Some a => mret a
  | None => panic nil_dereference
  end.

(** A client together with the store of the [Config] objects. *)
Record State : Type := mkState {
  self : Client.t;
  configs : gmap loc Config.t;
}.

(** The [Config] that [c.Conf] points to. *)
Definition Conf_deref : M State Config.t :=
  s ← get; deref (configs s !! Client.Conf (self s)).

(** Running a computation from state [s] in world [w]: the outcome, the
    state reached, the world reached and the calls made, in order. *)
Definition exec {W S A : Type} (h : Handler W) (m : M S A) (s : S) (w : W)
  : Outcome A * S * W * list Event :=
  run h (m s) w.

Definition set_client (c : Client.t) : M State unit :=
  s ← get; put (mkState c (configs s)).

Definition newline : string := String (Ascii.ascii_of_nat 10) "".

(** ** The methods of [Client] *)

(** [QueryTx]: the body is [panic("implement me")]. *)
Definition QueryTx (req : QueryTxParams) : M State (QueryTxResponse * error) :=
  panic "implement me".

(** Modelled from the spec: [getEncryptionKey] is called by [SessionID] but
    declared outside [service.go]. Section 4.1, acquireSession step 1:
    "Encrypt the configured API key with the configured public key
    (Encryption Adapter) to obtain a bootstrap token". *)
Definition getEncryptionKey : M State (string * error) :=
  conf ← Conf_deref;
  call (encryptKey (Config.APIKey conf) (Config.PublicKey conf)).

Definition SessionID : M State (SessionResponse * error) :=
  let response : SessionResponse := zero in
  '(token, err) ← getEncryptionKey;
  match err with
  | Some _ => mret (response, err)
  | None =>
    let headers : gmap string string :=
      {[ "Content-Type" := "application/json";
         "Origin" := "*";
         "Authorization" := "Bearer " +:+ token ]} in
    let opts := [] ++ [base_WithRequestHeaders headers] in
    s ← get;
    let re := makeInternalRequest (self s) (configs s) requestType.sessionID None opts in
    b ← deref (Client.base (self s));
    '(response, res, err) ← call (base_Do_session b re response);
    match err with
    | Some _ => mret (response, err)
    | None =>
      r ← deref res;
      match Response_Error r with
      | Some resErr =>
          mret (zero, Some (fmt_Errorf_w "could not fetch session id: " resErr))
      | None =>
        if decide (OutputErr response ≠ "") then
          let err1 := fmt_Errorf_s "could not fetch session id: " (OutputErr response) in
          mret (response, Some err1)
        else
          conf ← Conf_deref;
          let sessLifeTimeMin := Config.SessionLifetimeMinutes conf in
          let sessID := ID response in
          let up := Duration_mul sessLifeTimeMin time_Minute in
          now ← call time_Now;
          let expiration := Time_Add now up in
          s ← get;
          set_client (Client.set_sessionExpiration expiration (self s));;
          s ← get;
          set_client (Client.set_sessionID (Some sessID) (self s));;
          mret (response, None)
      end
    end
  end.

(** Modelled from the spec: [checkSessionID] is called by [PushAsync] and
    [Disburse] but declared outside [service.go]. Section 4.1: "ensureSession
    returns the cached session id immediately if now < expiresAt; otherwise
    it calls acquireSession and replaces the cached Session atomically, then
    returns the new id"; section 7: "Session-refresh failures abort the
    calling operation entirely". *)
Definition checkSessionID : M State (string * error) :=
  now ← call time_Now;
  s ← get;
  if decide (now < Client.sessionExpiration (self s)) then
    id ← deref (Client.sessionID (self s));
    mret (id, None)
  else
    '(resp, err) ← SessionID;
    match err with
    | Some _ => mret ("", err)
    | None => mret (ID resp, None)
    end.

Definition PushAsync (request : Request) : M State (PushAsyncResponse * error) :=
  let response : PushAsyncResponse := zero in
  '(sess, err) ← checkSessionID;
  match err with
  | Some _ => mret (response, err)
  | None =>
    conf ← Conf_deref;
    '(token, err) ← call (encryptKey sess (Config.PublicKey conf));
    match err with
    | Some _ => mret (response, err)
    | None =>
      let headers : gmap string string :=
        {[ "Content-Type" := "application/json";
           "Origin" := "*";
           "Authorization" := "Bearer " +:+ token ]} in
      s ← get;
      ra ← deref (Client.requestAdapter (self s));
      let '(payload, err) := adapt ra requestType.pushPay request in
      match err with
      | Some _ => mret (zero, err)
      | None =>
        let opts := [] ++ [base_WithRequestHeaders headers] in
        let re := makeInternalRequest (self s) (configs s) requestType.pushPay payload opts in
        b ← deref (Client.base (self s));
        '(response, res, err) ← call (base_Do_push b re response);
        match err with
        | Some _ => mret (response, err)
        | None =>
          call (fmt_Printf ("pushpay response: %s: %v" +:+ newline)
                  (requestType_String requestType.pushPay) res);;
          if decide (OutputErr response ≠ "") then
            let err1 := fmt_Errorf_s "could not perform c2b single stage request: "
                          (OutputErr response) in
            mret (response, Some err1)
          else mret (response, None)
        end
      end
    end
  end.

Definition Disburse (request : Request) : M State (DisburseResponse * error) :=
  let response : DisburseResponse := zero in
  '(sess, err) ← checkSessionID;
  match err with
  | Some _ => mret (response, err)
  | None =>
    conf ← Conf_deref;
    '(token, err) ← call (encryptKey sess (Config.PublicKey conf));
    match err with
    | Some _ => mret (response, err)
    | None =>
      let headers : gmap string string :=
        {[ "Content-Type" := "application/json";
           "Origin" := "*";
           "Authorization" := "Bearer " +:+ token ]} in
      s ← get;
      ra ← deref (Client.requestAdapter (self s));
      let '(payload, err) := adapt ra requestType.disburse request in
      match err with
      | Some _ => mret (zero, err)
      | None =>
        let opts := [] ++ [base_WithRequestHeaders headers] in
        let re := makeInternalRequest (self s) (configs s) requestType.disburse payload opts in
        b ← deref (Client.base (self s));
        '(response, res, err) ← call (base_Do_disburse b re response);
        match err with
        | Some _ => mret (response, err)
        | None =>
          call (fmt_Printf ("disburse response: %s: %v" +:+ newline)
                  (requestType_String requestType.disburse) res);;
          if decide (OutputErr response ≠ "") then
            let err1 := fmt_Errorf_s "could not perform disburse request: "
                          (OutputErr response) in
            mret (response, Some err1)
          else mret (response, None)
        end
      end
    end
  end.

Definition http_StatusInternalServerError : Z := 500.

Definition CallbackServeHTTP (writer : http_ResponseWriter) (request : http_Request)
  : M State unit :=
  let body : PushCallbackRequest := zero in
  s ← get;
  rv ← deref (Client.rv (self s));
  '(body, err) ← call (Receive rv "mpesa push callback" request body);
  match err with
  | Some err => call (http_Error writer (Error err) http_StatusInternalServerError)
  | None =>
    let reqBody := body in
    s ← get;
    hd ← deref (Client.pushCallbackFunc (self s));
    '(resp, err) ← call (HandleCallback hd reqBody);
    match err with
    | Some err => call (http_Error writer (Error err) http_StatusInternalServerError)
    | None =>
      let hs := base_WithMoreResponseHeaders {[ "Content-Type" := "application/json" ]} in
      let response := base_NewResponse 200 resp [hs] in
      s ← get;
      rp ← deref (Client.rp (self s));
      call (Reply rp writer response)
    end
  end.

(** ** The constructor *)

(** A [ClientOption] is a closure over the client under construction; it may
    assign the client's fields and write through its pointers, and it
    returns without calling out. The type is declared outside [service.go];
    the statements below say what they need of the options they are given. *)
Definition ClientOption : Type := State -> State.

(** [for _, opt := range opts { opt(client) }] *)
Definition apply_options (opts : list ClientOption) (s : State) : State :=
  fold_left (fun s opt => opt s) opts s.

(** The base path written into the configuration. *)
Definition base_path_url (basePath platformStr marketStr : string) : string :=
  "https://" +:+ basePath +:+ "/" +:+ platformStr +:+ "/ipg/v2/" +:+ marketStr +:+ "/".

Definition NewClient (conf : loc) (callbacker : option PushCallbackHandler)
    (opts : list ClientOption) : M (gmap loc Config.t) Client.t :=
  let enc := Some "" in
  let ses := Some "" in
  σ ← get;
  cfg ← deref (σ !! conf);
  let basePath := Config.BasePath cfg in
  now ← call time_Now;
  let client :=
    Client.mk _ conf (Some base_NewClient) enc ses now callbacker None None None in
  let s := apply_options opts (mkState client σ) in
  let client := self s in
  put (configs s);;
  σ ← get;
  cfg ← deref (σ !! Client.Conf client);
  let platform := Config.Platform cfg in
  let market := Config.Market cfg in
  let '(platformStr, marketStr) := (Platform_String platform, Market_URLContextValue market) in
  let p := base_path_url basePath platformStr marketStr in
  put (<[Client.Conf client := Config.set_BasePath p cfg]> σ);;
  σ ← get;
  cfg ← deref (σ !! conf);
  let client :=
    Client.set_requestAdapter
      (Some (requestAdapter.mk _ platform market (Config.ServiceProvideCode cfg))) client in
  b ← deref (Client.base client);
  let rp := base_NewReplier (Logger b) (DebugMode b) in
  b ← deref (Client.base client);
  let rv := base_NewReceiver (Logger b) (DebugMode b) in
  let client := Client.set_rp (Some rp) client in
  let client := Client.set_rv (Some rv) client in
  mret client.

(** ** Sequences of client operations *)

Inductive Operation : Type :=
| OpQueryTx (req : QueryTxParams)
| OpSessionID
| OpPushAsync (request : Request)
| OpDisburse (request : Request)
| OpCallbackServeHTTP (writer : http_ResponseWriter) (request : http_Request).

Definition perform (op : Operation) : M State unit :=
  match op with
  | OpQueryTx req => QueryTx req;; mret tt
  | OpSessionID => SessionID;; mret tt
  | OpPushAsync request => PushAsync request;; mret tt
  | OpDisburse request => Disburse request;; mret tt
  | OpCallbackServeHTTP writer request => CallbackServeHTTP writer request
  end.

(** The operations one after the other; a panic ends the sequence. *)
Fixpoint perform_all (ops : list Operation) : M State unit :=
  match ops with
  | [] => mret tt
  | op :: ops => perform op;; perform_all ops
  end.

(** ** Properties of options, stores and traces used by the statements *)

(** The client as the struct literal of [NewClient] builds it, before the
    options run. *)
Definition initial_client (conf : loc) (callbacker : option PushCallbackHandler)
    (now : Time) : Client.t :=
  Client.mk _ conf (Some base_NewClient) (Some "") (Some "") now callbacker
    None None None.

(** Two configurations that agree on every field but [BasePath]. *)
Definition same_but_BasePath (a b : Config.t) : Prop :=
  Config.Endpoints b = Config.Endpoints a /\
  Config.Name b = Config.Name a /\
  Config.Version b = Config.Version a /\
  Config.Description b = Config.Description a /\
  Config.Market b = Config.Market a /\
  Config.Platform b = Config.Platform a /\
  Config.APIKey b = Config.APIKey a /\
  Config.PublicKey b = Config.PublicKey a /\
  Config.SessionLifetimeMinutes b = Config.SessionLifetimeMinutes a /\
  Config.ServiceProvideCode b = Config.ServiceProvideCode a /\
  Config.TrustedSources b = Config.TrustedSources a.

(** The client's [Conf] and [base] pointers are not [nil]. *)
Definition well_formed (s : State) : Prop :=
  is_Some (configs s !! Client.Conf (self s)) /\ is_Some (Client.base (self s)).

(** Go does not free a [Config] that is still reachable. *)
Definition extends (s s' : State) : Prop :=
  forall l, is_Some (configs s !! l) -> is_Some (configs s' !! l).

(** An option that leaves [Conf] and [base] usable. *)
Definition sound_option (opt : ClientOption) : Prop :=
  forall s, well_formed s -> well_formed (opt s) /\ extends s (opt s).

(** An option that does not write to any [Config]. *)
Definition keeps_configs (opt : ClientOption) : Prop :=
  forall s, configs (opt s) = configs s.

(** An option that does not assign the session fields. *)
Definition keeps_session (opt : ClientOption) : Prop :=
  forall s,
    Client.sessionID (self (opt s)) = Client.sessionID (self s) /\
    Client.sessionExpiration (self (opt s)) = Client.sessionExpiration (self s).

(** The event is a call of the caller-supplied callback handler. *)
Definition is_HandleCallback (ev : Event) : bool :=
  match ev_call ev with
  | HandleCallback _ _ => true
  | _ => false
  end.

(** An option that does not assign [Conf]. *)
Definition keeps_Conf (opt : ClientOption) : Prop :=
  forall s, Client.Conf (self (opt s)) = Client.Conf (self s).

(** An option that does not assign [pushCallbackFunc]. *)
Definition keeps_pushCallbackFunc (opt : ClientOption) : Prop :=
  forall s,
    Client.pushCallbackFunc (self (opt s)) = Client.pushCallbackFunc (self s).

(** The event is a call of the HTTP executor. *)
Definition is_base_Do (ev : Event) : bool :=
  match ev_call ev with
  | base_Do_session _ _ _ | base_Do_push _ _ _ | base_Do_disburse _ _ _ => true
  | _ => false
  end.

(** The event reads the clock. *)
Definition is_time_Now (ev : Event) : bool :=
  match ev_call ev with
  | time_Now => true
  | _ => false
  end.

(** The event writes to the [http.ResponseWriter] of the inbound call,
    through [http.Error] or through the replier. *)
Definition is_reply (ev : Event) : bool :=
  match ev_call ev with
  | http_Error _ _ _ | Reply _ _ _ => true
  | _ => false
  end.

(** The request handed over, when the event is a call of the callback
    handler. *)
Definition handled_request (ev : Event) : option PushCallbackRequest :=
  match ev_call ev with
  | HandleCallback _ request => Some request
  | _ => None
  end.

(** How many events of a trace satisfy [p]. *)
Definition count (p : Event -> bool) (tr : list Event) : nat :=
  length (List.filter p tr).

(** ** The four-step sequence of section 4.4

    [four_steps op do_call fmt request s w r] holds when [r] is the result
    (outcome, state, world and trace) of: 1. obtaining the session token with
    [checkSessionID]; 2. encrypting it into the bearer token; 3. adapting
    [request] for operation [op]; 4. executing the HTTP call [do_call],
    where a step that fails ends the sequence with its error. [t1] is the
    trace of step 1. *)
Section FourSteps.
Context {W : Type} (h : Handler W).
Context {R : Type} `{GatewayResponse R}.
Context (op : requestType.t).
Context (do_call : base_Client -> base_Request -> R -> Call (R * option base_Response * error)).
Context (fmt : string) (request : Request).

Definition bearer_headers (token : string) : gmap string string :=
  {[ "Content-Type" := "application/json";
     "Origin" := "*";
     "Authorization" := "Bearer " +:+ token ]}.

Inductive four_steps (s : State) (w : W)
  : Outcome (R * error) * State * W * list Event -> Prop :=
| session_panics msg s1 w1 t1 :
    exec h checkSessionID s w = (Panicked msg, s1, w1, t1) ->
    four_steps s w (Panicked msg, s1, w1, t1)
| session_fails sess e s1 w1 t1 :
    exec h checkSessionID s w = (Returned (sess, Some e), s1, w1, t1) ->
    four_steps s w (Returned (zero, Some e), s1, w1, t1)
| encryption_panics sess s1 w1 t1 :
    exec h checkSessionID s w = (Returned (sess, None), s1, w1, t1) ->
    configs s1 !! Client.Conf (self s1) = None ->
    four_steps s w (Panicked nil_dereference, s1, w1, t1)
| encryption_fails sess s1 w1 t1 conf token e w2 :
    exec h checkSessionID s w = (Returned (sess, None), s1, w1, t1) ->
    configs s1 !! Client.Conf (self s1) = Some conf ->
    h _ (encryptKey sess (Config.PublicKey conf)) w1 = ((token, Some e), w2) ->
    four_steps s w
      (Returned (zero, Some e), s1, w2,
       t1 ++ [Ev (encryptKey sess (Config.PublicKey conf)) (token, Some e)])
| adaptation_panics sess s1 w1 t1 conf token w2 :
    exec h checkSessionID s w = (Returned (sess, None), s1, w1, t1) ->
    configs s1 !! Client.Conf (self s1) = Some conf ->
    h _ (encryptKey sess (Config.PublicKey conf)) w1 = ((token, None), w2) ->
    Client.requestAdapter (self s1) = None ->
    four_steps s w
      (Panicked nil_dereference, s1, w2,
       t1 ++ [Ev (encryptKey sess (Config.PublicKey conf)) (token, None)])
| adaptation_fails sess s1 w1 t1 conf token w2 ra payload e :
    exec h checkSessionID s w = (Returned (sess, None), s1, w1, t1) ->
    configs s1 !! Client.Conf (self s1) = Some conf ->
    h _ (encryptKey sess (Config.PublicKey conf)) w1 = ((token, None), w2) ->
    Client.requestAdapter (self s1) = Some ra ->
    adapt ra op request = (payload, Some e) ->
    four_steps s w
      (Returned (zero, Some e), s1, w2,
       t1 ++ [Ev (encryptKey sess (Config.PublicKey conf)) (token, None)])
| call_panics sess s1 w1 t1 conf token w2 ra payload :
    exec h checkSessionID s w = (Returned (sess, None), s1, w1, t1) ->
    configs s1 !! Client.Conf (self s1) = Some conf ->
    h _ (encryptKey sess (Config.PublicKey conf)) w1 = ((token, None), w2) ->
    Client.requestAdapter (self s1) = Some ra ->
    adapt ra op request = (payload, None) ->
    Client.base (self s1) = None ->
    four_steps s w
      (Panicked nil_dereference, s1, w2,
       t1 ++ [Ev (encryptKey sess (Config.PublicKey conf)) (token, None)])
| call_fails sess s1 w1 t1 conf token w2 ra payload b response res e w3 :
    exec h checkSessionID s w = (Returned (sess, None), s1, w1, t1) ->
    configs s1 !! Client.Conf (self s1) = Some conf ->
    h _ (encryptKey sess (Config.PublicKey conf)) w1 = ((token, None), w2) ->
    Client.requestAdapter (self s1) = Some ra ->
    adapt ra op request = (payload, None) ->
    Client.base (self s1) = Some b ->
    let re := makeInternalRequest (self s1) (configs s1) op payload
                [base_WithRequestHeaders (bearer_headers token)] in
    h _ (do_call b re zero) w2 = ((response, res, Some e), w3) ->
    four_steps s w
      (Returned (response, Some e), s1, w3,
       t1 ++ [Ev (encryptKey sess (Config.PublicKey conf)) (token, None);
              Ev (do_call b re zero) (response, res, Some e)])
| call_returns sess s1 w1 t1 conf token w2 ra payload b response res w3 err :
    exec h checkSessionID s w = (Returned (sess, None), s1, w1, t1) ->
    configs s1 !! Client.Conf (self s1) = Some conf ->
    h _ (encryptKey sess (Config.PublicKey conf)) w1 = ((token, None), w2) ->
    Client.requestAdapter (self s1) = Some ra ->
    adapt ra op request = (payload, None) ->
    Client.base (self s1) = Some b ->
    let re := makeInternalRequest (self s1) (configs s1) op payload
                [base_WithRequestHeaders (bearer_headers token)] in
    h _ (do_call b re zero) w2 = ((response, res, None), w3) ->
    let print := fmt_Printf fmt (requestType_String op) res in
    four_steps s w
      (Returned (response, err), s1, (h _ print w3).2,
       t1 ++ [Ev (encryptKey sess (Config.PublicKey conf)) (token, None);
              Ev (do_call b re zero) (response, res, None);
              Ev print (h _ print w3).1]).
End FourSteps.

End Service.

Arguments Ret {H A} a.
Arguments Vis {H A X} e k.
Arguments Ev {H ev_type} ev_call ev_answer.
Arguments exec : simpl never.

(** ** A stub gateway

    Concrete declarations and a scripted outside world, used to run the
    operations on explicit inputs. *)
Module Stub.

Inductive market : Type := Tanzania | Ghana.
Inductive platform : Type := Sandbox | OpenAPI.

(** A gateway answer: a session id or reference and the business error. *)
Record answer : Type := Answer { answer_id : string; answer_err : string }.

#[export] Instance decls : Decls := {|
  Market := market;
  Platform := platform;
  Request := string;
  Payload := string;
  SessionResponse := answer;
  PushAsyncResponse := answer;
  DisburseResponse := answer;
  QueryTxParams := string;
  QueryTxResponse := answer;
  PushCallbackRequest := string;
  PushCallbackResponse := string;
  PushCallbackHandler := unit;
  base_Client := bool;
  base_Request := requestType.t * option string * list base_RequestOption;
  base_Response := Z * error;
  base_Replier := unit;
  base_Receiver := unit;
  base_Logger := unit;
  http_ResponseWriter := unit;
  http_Request := string;
|}.

Definition answer_gw : GatewayResponse answer :=
  {| GatewayResponse_zero := Answer "" ""; OutputErr := answer_err |}.

(** [adapt] of the stub: the query operation has no mapping, and an
    empty request misses its fields. *)
Definition stub_adapt (ra : requestAdapter.t) (op : requestType.t) (request : string)
  : option string * error :=
  match op with
  | requestType.query => (None, Some (errorString "unsupported operation"))
  | _ =>
      if decide (request = "") then (None, Some (errorString "missing field"))
      else (Some (requestAdapter.serviceProviderCode ra +:+ ":" +:+ request), None)
  end.

#[export] Instance funcs : Funcs := {|
  Platform_String := fun p => match p with Sandbox => "sandbox" | OpenAPI => "openapi" end;
  Market_URLContextValue :=
    fun m => match m with Tanzania => "vodacomTZN" | Ghana => "vodafoneGHA" end;
  SessionResponse_gw := answer_gw;
  PushAsyncResponse_gw := answer_gw;
  DisburseResponse_gw := answer_gw;
  ID := answer_id;
  PushCallbackRequest_zero := "";
  requestType_String :=
    fun op => match op with
              | requestType.sessionID => "get session id"
              | requestType.pushPay => "push pay"
              | requestType.disburse => "disburse"
              | requestType.query => "query"
              end;
  adapt := stub_adapt;
  makeInternalRequest := fun _ _ op payload opts => (op, payload, opts);
  base_NewClient := false;
  Logger := fun _ => tt;
  DebugMode := fun b => b;
  base_NewReplier := fun _ _ => tt;
  base_NewReceiver := fun _ _ => tt;
  Response_Error := snd;
  base_NewResponse := fun status _ _ => (status, None);
|}.

(** The script of the outside world: what the clock shows and what each
    collaborator answers. *)
Record world : Type := World {
  clock : Z;
  session_answer : answer;
  payment_answer : answer;
  decode_error : error;
  callback_error : error;
}.

Definition handler : Handler world := fun X e =>
  match e in Call X return world -> X * world with
  | time_Now => fun w => (clock w, w)
  | encryptKey key _ => fun w => (("rsa:" +:+ key, None), w)
  | base_Do_session _ _ _ => fun w => ((session_answer w, Some (200, None), None), w)
  | base_Do_push _ _ _ => fun w => ((payment_answer w, Some (200, None), None), w)
  | base_Do_disburse _ _ _ => fun w => ((payment_answer w, Some (200, None), None), w)
  | fmt_Printf _ _ _ => fun w => (tt, w)
  | Receive _ _ r _ => fun w => ((r, decode_error w), w)
  | HandleCallback _ request => fun w => (("ack:" +:+ request, callback_error w), w)
  | http_Error _ _ _ => fun w => (tt, w)
  | Reply _ _ _ => fun w => (tt, w)
  end.

(** A configuration with a session lifetime of [minutes]. *)
Definition conf (minutes : Z) : Config.t :=
  Config.mk _ None "shop" "1.0" "stub" "openapi.m-pesa.com" Tanzania Sandbox
    "api-key" "public-key" minutes "000000" [].

Definition store (minutes : Z) : gmap loc Config.t := {[ 1%positive := conf minutes ]}.

(** A client holding the cached session ["S0"] that expires at instant 50. *)
Definition cached (minutes : Z) : State :=
  mkState
    (Client.mk _ 1%positive (Some false) (Some "") (Some "S0") 50 (Some tt)
       (Some (requestAdapter.mk _ Sandbox Tanzania "000000")) (Some tt) (Some tt))
    (store minutes).

(** The gateway grants session ["S1"] at instant 1000. *)
Definition granting : world :=
  World 1000 (Answer "S1" "") (Answer "ref-1" "") None None.

(** The gateway rejects the API key. *)
Definition rejecting : world :=
  World 1000 (Answer "" "invalid key") (Answer "ref-1" "") None None.

(** The gateway rejects the payment. *)
Definition declining : world :=
  World 40 (Answer "S1" "") (Answer "" "insufficient funds") None None.

(** The receiver cannot decode the callback body. *)
Definition undecodable : world :=
  World 1000 (Answer "S1" "") (Answer "ref-1" "") (Some (errorString "bad json")) None.

(** The caller's handler fails. *)
Definition handler_failing : world :=
  World 1000 (Answer "S1" "") (Answer "ref-1" "") None
    (Some (errorString "unknown transaction")).

(** An option that switches the executor to debug mode. *)
Definition WithDebugMode : ClientOption := fun s =>
  mkState
    (Client.mk _ (Client.Conf (self s)) (Some true)
       (Client.encryptedAPIKey (self s)) (Client.sessionID (self s))
       (Client.sessionExpiration (self s)) (Client.pushCallbackFunc (self s))
       (Client.requestAdapter (self s)) (Client.rp (self s)) (Client.rv (self s)))
    (configs s).

(** A second script, for the failures of the session acquisition: the
    error of the encryption, the error and the response object of the HTTP
    executor. Every other call is answered as by [handler]. *)
Record script : Type := Script {
  outside : world;
  encrypt_error : error;
  transport_error : error;
  executor_response : option (Z * error);
}.

Definition scripted : Handler script := fun X e =>
  match e in Call X return script -> X * script with
  | encryptKey key _ => fun w =>
      (match encrypt_error w with
       | Some err => ("", Some err)
       | None => ("rsa:" +:+ key, None)
       end, w)
  | base_Do_session _ _ v => fun w =>
      ((match transport_error w with
        | Some _ => v
        | None => session_answer (outside w)
        end, executor_response w, transport_error w), w)
  | e => fun w =>
      let '(x, o) := handler _ e (outside w) in
      (x, Script o (encrypt_error w) (transport_error w) (executor_response w))
  end.

(** The public key is malformed. *)
Definition bad_key : script :=
  Script granting (Some (errorString "invalid public key")) None (Some (200, None)).

(** The connection times out. *)
Definition timing_out : script :=
  Script granting None (Some (errorString "context deadline exceeded")) None.

(** The gateway answers with an error object. *)
Definition gateway_down : script :=
  Script granting None None (Some (503, Some (errorString "service unavailable"))).

(** The executor returns neither a response object nor an error. *)
Definition silent : script := Script granting None None None.

(** An option that installs a session obtained elsewhere. *)
Definition WithSession (id : string) (expiration : Z) : ClientOption := fun s =>
  mkState
    (Client.mk _ (Client.Conf (self s)) (Client.base (self s))
       (Client.encryptedAPIKey (self s)) (Some id) expiration
       (Client.pushCallbackFunc (self s)) (Client.requestAdapter (self s))
       (Client.rp (self s)) (Client.rv (self s)))
    (configs s).

End Stub.

(** * Properties *)

Create Rewrite HintDb exec.

Section Theory.
Context `{F : Funcs}.

Lemma wrap64_id z : int64_range z -> wrap64 z = z.
Proof.
  unfold int64_range, wrap64. intros Hz.
  rewrite Z.mod_small; lia.
Qed.

Lemma run_pbind {W A B} (h : Handler W) (p : Prog A) (f : A -> Prog B) w :
  run h (pbind p f) w =
  let '(a, w1, t1) := run h p w in
  let '(b, w2, t2) := run h (f a) w1 in
  (b, w2, t1 ++ t2).
Proof.
  revert w. induction p as [a|X e k IH]; intros w; simpl.
  - by destruct (run h (f a) w) as [[b w2] t2].
  - destruct (h X e w) as [x w1]. rewrite IH.
    destruct (run h (k x) w1) as [[a w2] t1].
    by destruct (run h (f a) w2) as [[b w3] t2].
Qed.

(** ** Equations of [exec], one per operation of the monad *)
Section exec.
Context {W : Type} (h : Handler W).

Lemma exec_ret {S A} (a : A) (s : S) w :
  exec h (mret a) s w = (Returned a, s, w, []).
Proof. reflexivity. Qed.

Lemma exec_bind {S A B} (m : M S A) (f : A -> M S B) s w :
  exec h (m ≫= f) s w =
  let '(o, s1, w1, t1) := exec h m s w in
  match o with
  | Returned a =>
      let '(o2, s2, w2, t2) := exec h (f a) s1 w1 in (o2, s2, w2, t1 ++ t2)
  | Panicked msg => (Panicked msg, s1, w1, t1)
  end.
Proof.
  unfold exec, mbind, M_bind. rewrite run_pbind.
  destruct (run h (m s) w) as [[[o s1] w1] t1]. destruct o as [a|msg]; simpl.
  - by destruct (run h (f a s1) w1) as [[[o2 s2] w2] t2].
  - by rewrite app_nil_r.
Qed.

Lemma exec_call {S X} (e : Call X) (s : S) w :
  exec h (call e) s w = (Returned (h _ e w).1, s, (h _ e w).2, [Ev e (h _ e w).1]).
Proof. unfold exec, call. simpl. by destruct (h X e w). Qed.

Lemma exec_get {S} (s : S) w : exec h get s w = (Returned s, s, w, []).
Proof. reflexivity. Qed.

Lemma exec_put {S} (s' s : S) w : exec h (put s') s w = (Returned tt, s', w, []).
Proof. reflexivity. Qed.

Lemma exec_panic {S A} msg (s : S) w :
  exec h (panic msg : M S A) s w = (Panicked msg, s, w, []).
Proof. reflexivity. Qed.

Lemma exec_deref_Some {S A} (a : A) (s : S) w :
  exec h (deref (Some a)) s w = (Returned a, s, w, []).
Proof. reflexivity. Qed.

Lemma exec_deref_None {S A} (s : S) w :
  exec h (deref (None : option A)) s w = (Panicked nil_dereference, s, w, []).
Proof. reflexivity. Qed.

End exec.

Hint Rewrite @exec_ret @exec_bind @exec_call @exec_get @exec_put @exec_panic
  @exec_deref_Some @exec_deref_None : exec.

(** Symbolic execution: rewrite with the equations, then case on the
    answer of the next call. *)
Ltac exec_simpl := repeat (autorewrite with exec; simpl).

Ltac next_call h :=
  match goal with
  | |- context [h ?X ?e ?w] =>
      let x := fresh "x" in
      let w1 := fresh "w" in
      let E := fresh "Hcall" in
      destruct (h X e w) as [x w1] eqn:E; exec_simpl
  end.

(** ** [QueryTx] *)

(** C9. For every input and every state of the client and of the outside
    world, [QueryTx] panics with "implement me" without calling out and
    without touching the state; in particular it never returns a
    [QueryTxResponse]. *)
Theorem QueryTx_not_implemented {W} (h : Handler W) (req : QueryTxParams) (s : State) (w : W) :
  exec h (QueryTx req) s w = (Panicked "implement me", s, w, []) /\
  forall r s' w' tr, exec h (QueryTx req) s w <> (Returned r, s', w', tr).
Proof.
  unfold QueryTx. rewrite exec_panic. split; [reflexivity | discriminate].
Qed.

(** ** [SessionID] *)

(** Every way [SessionID] can end. Only the last one, the fully successful
    acquisition, changes the state. *)
Lemma SessionID_cases {W} (h : Handler W) (s : State) (w : W) :
  (exec h SessionID s w).1.1.2 = s \/
  exists response,
    (exec h SessionID s w).1.1.1 = Returned (response, None).
Proof.
  unfold SessionID, getEncryptionKey, Conf_deref, set_client. exec_simpl.
  destruct (configs s !! Client.Conf (self s)) as [conf|] eqn:Hconf;
    exec_simpl; [|by left].
  next_call h. destruct x as [token [err|]]; exec_simpl; [by left|].
  destruct (Client.base (self s)) as [b|]; exec_simpl; [|by left].
  next_call h. destruct x as [[response res] [err|]]; exec_simpl; [by left|].
  destruct res as [r|]; exec_simpl; [|by left].
  destruct (Response_Error r) as [resErr|]; exec_simpl; [by left|].
  destruct (decide (OutputErr response ≠ "")); exec_simpl; [by left|].
  rewrite Hconf. exec_simpl. next_call h.
  right. by exists response.
Qed.

(** C2. Whenever [SessionID] returns an error, whichever step it comes
    from, the cached session id and the cached expiration are those from
    before the call. *)
Theorem SessionID_error_keeps_session {W} (h : Handler W) (s s' : State) (w w' : W)
    (response : SessionResponse) (e : GoError) (tr : list Event) :
  exec h SessionID s w = (Returned (response, Some e), s', w', tr) ->
  Client.sessionID (self s') = Client.sessionID (self s) /\
  Client.sessionExpiration (self s') = Client.sessionExpiration (self s).
Proof.
  intros Hexec. destruct (SessionID_cases h s w) as [Hs|[r Hr]].
  - rewrite Hexec in Hs. simpl in Hs. by subst s'.
  - rewrite Hexec in Hr. discriminate Hr.
Qed.

(** C1 (amended). When the API key is encrypted, the transport call
    succeeds, the response carries no error object and [OutputErr] is empty,
    [SessionID] replaces the cached session by the id of the response and
    the expiration [now + SessionLifetimeMinutes minutes], [now] being the
    clock read after the call, and returns the parsed response unchanged
    with no error; this for every lifetime whose length in nanoseconds fits
    a [time.Duration]. *)
Theorem SessionID_success {W} (h : Handler W) (s : State) (w w1 w2 w3 : W)
    (conf : Config.t) (b : base_Client) (token : string)
    (response : SessionResponse) (res : base_Response) (now : Time) :
  configs s !! Client.Conf (self s) = Some conf ->
  Client.base (self s) = Some b ->
  h _ (encryptKey (Config.APIKey conf) (Config.PublicKey conf)) w = ((token, None), w1) ->
  let re := makeInternalRequest (self s) (configs s) requestType.sessionID None
              [base_WithRequestHeaders (bearer_headers token)] in
  h _ (base_Do_session b re zero) w1 = ((response, Some res, None), w2) ->
  Response_Error res = None ->
  OutputErr response = "" ->
  h _ time_Now w2 = (now, w3) ->
  int64_range (Config.SessionLifetimeMinutes conf * time_Minute) ->
  exec h SessionID s w =
    (Returned (response, None),
     mkState
       (Client.set_sessionID (Some (ID response))
          (Client.set_sessionExpiration
             (now + Config.SessionLifetimeMinutes conf * time_Minute) (self s)))
       (configs s),
     w3,
     [Ev (encryptKey (Config.APIKey conf) (Config.PublicKey conf)) (token, None);
      Ev (base_Do_session b re zero) (response, Some res, None);
      Ev time_Now now]).
Proof.
  intros Hconf Hbase Henc re Hdo Hres Hout Hnow Hfit.
  unfold SessionID, getEncryptionKey, Conf_deref, set_client. exec_simpl.
  rewrite Hconf. exec_simpl. rewrite Henc. exec_simpl.
  rewrite Hbase. exec_simpl.
  fold (bearer_headers token). fold re. rewrite Hdo. exec_simpl.
  rewrite Hres. exec_simpl.
  destruct (decide (OutputErr response ≠ "")) as [Hne|_]; [done|].
  exec_simpl. rewrite Hconf. exec_simpl. rewrite Hnow. exec_simpl.
  unfold Time_Add, Duration_mul. by rewrite (wrap64_id _ Hfit).
Qed.

(** ** [PushAsync] and [Disburse] *)

(** C3. In [PushAsync] and in [Disburse], once the session token is
    obtained, encrypted, the request adapted and the HTTP executor has
    returned without error, the operation returns the parsed response, and
    it returns an error exactly when [OutputErr] of the response is not
    empty; the message of that error ends with [OutputErr]. *)
Theorem payment_error_iff_OutputErr {W} (h : Handler W) (request : Request)
    (s s1 : State) (w w1 w2 w3 : W) (t1 : list Event) (sess token : string)
    (conf : Config.t) (ra : requestAdapter.t) (payload : option Payload)
    (b : base_Client) (res : option base_Response) :
  exec h checkSessionID s w = (Returned (sess, None), s1, w1, t1) ->
  configs s1 !! Client.Conf (self s1) = Some conf ->
  h _ (encryptKey sess (Config.PublicKey conf)) w1 = ((token, None), w2) ->
  Client.requestAdapter (self s1) = Some ra ->
  Client.base (self s1) = Some b ->
  (forall response : PushAsyncResponse,
     adapt ra requestType.pushPay request = (payload, None) ->
     let re := makeInternalRequest (self s1) (configs s1) requestType.pushPay payload
                 [base_WithRequestHeaders (bearer_headers token)] in
     h _ (base_Do_push b re zero) w2 = ((response, res, None), w3) ->
     exists err,
       (exec h (PushAsync request) s w).1.1.1 = Returned (response, err) /\
       (err = None <-> OutputErr response = "") /\
       forall e, err = Some e ->
         Error e = "could not perform c2b single stage request: " +:+ OutputErr response) /\
  (forall response : DisburseResponse,
     adapt ra requestType.disburse request = (payload, None) ->
     let re := makeInternalRequest (self s1) (configs s1) requestType.disburse payload
                 [base_WithRequestHeaders (bearer_headers token)] in
     h _ (base_Do_disburse b re zero) w2 = ((response, res, None), w3) ->
     exists err,
       (exec h (Disburse request) s w).1.1.1 = Returned (response, err) /\
       (err = None <-> OutputErr response = "") /\
       forall e, err = Some e ->
         Error e = "could not perform disburse request: " +:+ OutputErr response).
Proof.
  intros Hsess Hconf Henc Hra Hbase.
  split; intros response Hadapt re Hdo;
    unfold PushAsync, Disburse, Conf_deref; exec_simpl;
    rewrite Hsess; exec_simpl; rewrite Hconf; exec_simpl;
    rewrite Henc; exec_simpl; rewrite Hra; exec_simpl;
    rewrite Hadapt; exec_simpl; rewrite Hbase; exec_simpl;
    fold (bearer_headers token); fold re; rewrite Hdo; exec_simpl;
    destruct (decide (OutputErr response ≠ "")) as [Hne|Heq]; exec_simpl.
  all: eexists; (split; [reflexivity|]); split.
  - split; [discriminate | done].
  - by intros e [= <-].
  - split; [|done]. intros _. by destruct (decide (OutputErr response = "")).
  - discriminate.
  - split; [discriminate | done].
  - by intros e [= <-].
  - split; [|done]. intros _. by destruct (decide (OutputErr response = "")).
  - discriminate.
Qed.

(** C4. [PushAsync] and [Disburse] run the same four-step sequence, in
    order: the session token from [checkSessionID], its encryption into the
    bearer token, the adaptation of the request, the HTTP call. A step that
    fails ends the operation with its error and no later step is performed:
    when the adaptation fails, the trace stops after the encryption and holds
    no HTTP call of the operation. *)
Theorem payment_four_steps {W} (h : Handler W) (request : Request) (s : State) (w : W) :
  four_steps h requestType.pushPay base_Do_push
    ("pushpay response: %s: %v" +:+ newline) request s w
    (exec h (PushAsync request) s w) /\
  four_steps h requestType.disburse base_Do_disburse
    ("disburse response: %s: %v" +:+ newline) request s w
    (exec h (Disburse request) s w) /\
  forall sess s1 w1 t1 conf token w2 ra,
    exec h checkSessionID s w = (Returned (sess, None), s1, w1, t1) ->
    configs s1 !! Client.Conf (self s1) = Some conf ->
    h _ (encryptKey sess (Config.PublicKey conf)) w1 = ((token, None), w2) ->
    Client.requestAdapter (self s1) = Some ra ->
    let encryption := Ev (encryptKey sess (Config.PublicKey conf)) (token, None) in
    (forall payload e,
       adapt ra requestType.pushPay request = (payload, Some e) ->
       exec h (PushAsync request) s w =
         (Returned (zero, Some e), s1, w2, t1 ++ [encryption])) /\
    (forall payload e,
       adapt ra requestType.disburse request = (payload, Some e) ->
       exec h (Disburse request) s w =
         (Returned (zero, Some e), s1, w2, t1 ++ [encryption])).
Proof.
  split; [|split].
  (* the same case analysis for both operations: one constructor of
     [four_steps] per way out *)
  1, 2:
    unfold PushAsync, Disburse, Conf_deref; exec_simpl;
    destruct (exec h checkSessionID s w) as [[[o s1] w1] t1] eqn:Hsess;
    destruct o as [[sess [e|]]|msg]; exec_simpl; rewrite ?app_nil_r;
      [by eapply session_fails| |by eapply session_panics];
    destruct (configs s1 !! Client.Conf (self s1)) as [conf|] eqn:Hconf;
      exec_simpl; rewrite ?app_nil_r; [|by eapply encryption_panics];
    next_call h; destruct x as [token [e|]]; exec_simpl;
      [by eapply encryption_fails|];
    destruct (Client.requestAdapter (self s1)) as [ra|] eqn:Hra; exec_simpl;
      [|by eapply adaptation_panics];
    destruct (adapt ra _ request) as [payload [e|]] eqn:Hadapt; exec_simpl;
      [by eapply adaptation_fails|];
    destruct (Client.base (self s1)) as [b|] eqn:Hbase; exec_simpl;
      [|by eapply call_panics];
    next_call h; destruct x as [[response res] [e|]]; exec_simpl;
      [by eapply call_fails|];
    destruct (decide (OutputErr response ≠ "")); exec_simpl;
    by eapply call_returns.
  - intros sess s1 w1 t1 conf token w2 ra Hsess Hconf Henc Hra encryption.
    split; intros payload e Hadapt;
      unfold PushAsync, Disburse, Conf_deref; exec_simpl;
      rewrite Hsess; exec_simpl; rewrite Hconf; exec_simpl;
      rewrite Henc; exec_simpl; rewrite Hra; exec_simpl;
      rewrite Hadapt; by exec_simpl.
Qed.

(** ** [CallbackServeHTTP] *)

(** C7. When the receiver fails to decode the body of the callback,
    [CallbackServeHTTP] answers with [http.Error], status 500 and the
    message of the decode error, and returns; the callback handler is not
    called. *)
Theorem callback_undecodable {W} (h : Handler W) (writer : http_ResponseWriter)
    (request : http_Request) (s : State) (w w1 : W) (rv : base_Receiver)
    (body : PushCallbackRequest) (err : GoError) :
  Client.rv (self s) = Some rv ->
  h _ (Receive rv "mpesa push callback" request zero) w = ((body, Some err), w1) ->
  let reply := http_Error writer (Error err) 500 in
  exec h (CallbackServeHTTP writer request) s w =
    (Returned tt, s, (h _ reply w1).2,
     [Ev (Receive rv "mpesa push callback" request zero) (body, Some err);
      Ev reply tt]) /\
  Forall (fun ev => is_HandleCallback ev = false)
    (exec h (CallbackServeHTTP writer request) s w).2.
Proof.
  intros Hrv Hreceive reply.
  assert (exec h (CallbackServeHTTP writer request) s w =
    (Returned tt, s, (h _ reply w1).2,
     [Ev (Receive rv "mpesa push callback" request zero) (body, Some err);
      Ev reply tt])) as Hexec.
  { unfold CallbackServeHTTP. exec_simpl. rewrite Hrv. exec_simpl.
    rewrite Hreceive. exec_simpl. unfold http_StatusInternalServerError.
    fold reply. by destruct (h _ reply w1) as [[] w2]. }
  split; [exact Hexec|]. rewrite Hexec. simpl.
  repeat constructor.
Qed.

(** C8. When the body decodes, the reply follows the handler: a result is
    sent through the replier as a response of status 200 carrying the result
    and the header [Content-Type: application/json]; an error is answered
    with [http.Error], status 500 and the message of the handler's error. *)
Theorem callback_reply_follows_handler {W} (h : Handler W) (writer : http_ResponseWriter)
    (request : http_Request) (s : State) (w w1 w2 : W) (rv : base_Receiver)
    (hd : PushCallbackHandler) (body : PushCallbackRequest)
    (resp : PushCallbackResponse) :
  Client.rv (self s) = Some rv ->
  h _ (Receive rv "mpesa push callback" request zero) w = ((body, None), w1) ->
  Client.pushCallbackFunc (self s) = Some hd ->
  let received := Ev (Receive rv "mpesa push callback" request zero) (body, None) in
  (forall rp,
     h _ (HandleCallback hd body) w1 = ((resp, None), w2) ->
     Client.rp (self s) = Some rp ->
     let hs := base_WithMoreResponseHeaders {[ "Content-Type" := "application/json" ]} in
     let reply := Reply rp writer (base_NewResponse 200 resp [hs]) in
     exec h (CallbackServeHTTP writer request) s w =
       (Returned tt, s, (h _ reply w2).2,
        [received; Ev (HandleCallback hd body) (resp, None); Ev reply tt])) /\
  (forall err,
     h _ (HandleCallback hd body) w1 = ((resp, Some err), w2) ->
     let reply := http_Error writer (Error err) 500 in
     exec h (CallbackServeHTTP writer request) s w =
       (Returned tt, s, (h _ reply w2).2,
        [received; Ev (HandleCallback hd body) (resp, Some err); Ev reply tt])).
Proof.
  intros Hrv Hreceive Hhd received. split.
  - intros rp Hhandle Hrp hs reply.
    unfold CallbackServeHTTP. exec_simpl. rewrite Hrv. exec_simpl.
    rewrite Hreceive. exec_simpl. rewrite Hhd. exec_simpl.
    rewrite Hhandle. exec_simpl. rewrite Hrp. exec_simpl.
    fold hs. fold reply. by destruct (h _ reply w2) as [[] w3].
  - intros err Hhandle reply.
    unfold CallbackServeHTTP. exec_simpl. rewrite Hrv. exec_simpl.
    rewrite Hreceive. exec_simpl. rewrite Hhd. exec_simpl.
    rewrite Hhandle. exec_simpl. unfold http_StatusInternalServerError.
    fold reply. by destruct (h _ reply w2) as [[] w3].
Qed.

(** ** [NewClient] *)

Lemma same_but_BasePath_refl (a : Config.t) : same_but_BasePath a a.
Proof. by repeat split. Qed.

Lemma same_but_BasePath_set (p : string) (a : Config.t) :
  same_but_BasePath a (Config.set_BasePath p a).
Proof. by repeat split. Qed.

Lemma apply_options_sound (opts : list ClientOption) (s : State) :
  Forall sound_option opts -> well_formed s ->
  well_formed (apply_options opts s) /\ extends s (apply_options opts s).
Proof.
  intros Hopts. revert s.
  induction Hopts as [|opt opts Hopt _ IH]; intros s Hs; simpl.
  - split; [done|]. by intros l.
  - destruct (Hopt s Hs) as [Hwf Hext].
    destruct (IH (opt s) Hwf) as [Hwf' Hext'].
    split; [done|]. intros l Hl. by apply Hext', Hext.
Qed.

Lemma apply_options_keeps_configs (opts : list ClientOption) (s : State) :
  Forall keeps_configs opts -> configs (apply_options opts s) = configs s.
Proof.
  intros Hopts. revert s.
  induction Hopts as [|opt opts Hopt _ IH]; intros s; simpl; [done|].
  by rewrite IH.
Qed.

Lemma apply_options_keeps_session (opts : list ClientOption) (s : State) :
  Forall keeps_session opts ->
  Client.sessionID (self (apply_options opts s)) = Client.sessionID (self s) /\
  Client.sessionExpiration (self (apply_options opts s)) =
    Client.sessionExpiration (self s).
Proof.
  intros Hopts. revert s.
  induction Hopts as [|opt opts Hopt _ IH]; intros s; simpl; [done|].
  destruct (IH (opt s)) as [-> ->]. apply Hopt.
Qed.

Lemma apply_options_keeps_Conf (opts : list ClientOption) (s : State) :
  Forall keeps_Conf opts ->
  Client.Conf (self (apply_options opts s)) = Client.Conf (self s).
Proof.
  intros Hopts. revert s.
  induction Hopts as [|opt opts Hopt _ IH]; intros s; simpl; [done|].
  by rewrite IH.
Qed.

Lemma string_length_app (a b : string) :
  String.length (a +:+ b) = (String.length a + String.length b)%nat.
Proof. induction a as [|c a IH]; simpl; [done|]. by rewrite IH. Qed.

Lemma base_path_url_longer (host platformStr marketStr : string) :
  (String.length host < String.length (base_path_url host platformStr marketStr))%nat.
Proof.
  unfold base_path_url. rewrite !string_length_app. simpl. lia.
Qed.

(** What [NewClient] returns when no pointer it reads is [nil]. *)
Lemma NewClient_returns {W} (h : Handler W) (conf : loc)
    (callbacker : option PushCallbackHandler) (opts : list ClientOption)
    (σ : gmap loc Config.t) (w : W) (cfg : Config.t) :
  σ !! conf = Some cfg ->
  Forall sound_option opts ->
  let now := (h _ time_Now w).1 in
  let s1 := apply_options opts (mkState (initial_client conf callbacker now) σ) in
  exists cfg1 cfg2 b,
    configs s1 !! Client.Conf (self s1) = Some cfg1 /\
    Client.base (self s1) = Some b /\
    let p := base_path_url (Config.BasePath cfg)
               (Platform_String (Config.Platform cfg1))
               (Market_URLContextValue (Config.Market cfg1)) in
    let σ' := <[Client.Conf (self s1) := Config.set_BasePath p cfg1]> (configs s1) in
    σ' !! conf = Some cfg2 /\
    exec h (NewClient conf callbacker opts) σ w =
      (Returned
         (Client.set_rv (Some (base_NewReceiver (Logger b) (DebugMode b)))
            (Client.set_rp (Some (base_NewReplier (Logger b) (DebugMode b)))
               (Client.set_requestAdapter
                  (Some (requestAdapter.mk _ (Config.Platform cfg1) (Config.Market cfg1)
                           (Config.ServiceProvideCode cfg2)))
                  (self s1)))),
       σ', (h _ time_Now w).2, [Ev time_Now now]).
Proof.
  intros Hconf Hopts now s1.
  destruct (apply_options_sound opts (mkState (initial_client conf callbacker now) σ) Hopts)
    as [[[cfg1 Hcfg1] [b Hb]] Hext].
  { split; simpl; eauto. }
  fold s1 in Hcfg1, Hb, Hext.
  assert (is_Some (configs s1 !! conf)) as Hconf1.
  { apply Hext. simpl. eauto. }
  set (p := base_path_url (Config.BasePath cfg)
              (Platform_String (Config.Platform cfg1))
              (Market_URLContextValue (Config.Market cfg1))).
  assert (is_Some (<[Client.Conf (self s1) := Config.set_BasePath p cfg1]> (configs s1) !! conf))
    as [cfg2 Hcfg2].
  { rewrite lookup_insert. case_decide; eauto. }
  exists cfg1, cfg2, b. split; [done|]. split; [done|]. split; [done|].
  unfold NewClient. exec_simpl. rewrite Hconf. exec_simpl.
  fold now. fold (initial_client conf callbacker now). fold s1.
  rewrite Hcfg1. exec_simpl. fold p. rewrite Hcfg2. exec_simpl.
  unfold Client.set_requestAdapter at 1 2. simpl. rewrite Hb. by exec_simpl.
Qed.

(** C6. For every host configured in [BasePath], and for the platform and
    market of the client's configuration, [NewClient] returns a client
    whose configuration has the base path
    [https://<host>/<platform>/ipg/v2/<market>/], platform and market being
    rendered by [Platform.String] and [Market.URLContextValue]. *)
Theorem NewClient_base_path {W} (h : Handler W) (conf : loc)
    (callbacker : option PushCallbackHandler) (opts : list ClientOption)
    (σ : gmap loc Config.t) (w : W) (cfg : Config.t) :
  σ !! conf = Some cfg ->
  Forall sound_option opts ->
  exists c σ' w' tr cfg',
    exec h (NewClient conf callbacker opts) σ w = (Returned c, σ', w', tr) /\
    σ' !! Client.Conf c = Some cfg' /\
    Config.BasePath cfg' =
      "https://" +:+ Config.BasePath cfg +:+ "/" +:+
      Platform_String (Config.Platform cfg') +:+ "/ipg/v2/" +:+
      Market_URLContextValue (Config.Market cfg') +:+ "/".
Proof.
  intros Hconf Hopts.
  destruct (NewClient_returns h conf callbacker opts σ w cfg Hconf Hopts)
    as (cfg1 & cfg2 & b & Hcfg1 & Hb & Hcfg2 & Hexec).
  do 5 eexists. split; [exact Hexec|]. simpl. split.
  - apply lookup_insert_eq.
  - reflexivity.
Qed.

(** Case analysis on the next thing the execution depends on: the answer
    of a call, a pointer, or a test. *)
Ltac exec_case h :=
  first
    [ next_call h
    | match goal with
      | |- context [exec h (deref ?p) _ _] => destruct p eqn:?
      | |- context [exec h (match ?x with _ => _ end) _ _] => destruct x eqn:?
      end; exec_simpl ].

(** ** The configuration store *)

Lemma SessionID_configs {W} (h : Handler W) (s : State) (w : W) :
  configs (exec h SessionID s w).1.1.2 = configs s.
Proof.
  unfold SessionID, getEncryptionKey, Conf_deref, set_client. exec_simpl.
  repeat exec_case h; done.
Qed.

Lemma checkSessionID_configs {W} (h : Handler W) (s : State) (w : W) :
  configs (exec h checkSessionID s w).1.1.2 = configs s.
Proof.
  unfold checkSessionID. exec_simpl. next_call h.
  destruct (decide (x < Client.sessionExpiration (self s))); exec_simpl.
  - by destruct (Client.sessionID (self s)).
  - pose proof (SessionID_configs h s w0) as Hs.
    destruct (exec h SessionID s w0) as [[[o s1] w1] t1]. simpl in Hs.
    destruct o as [[resp [e|]]|msg]; by exec_simpl.
Qed.

Lemma PushAsync_configs {W} (h : Handler W) (request : Request) (s : State) (w : W) :
  configs (exec h (PushAsync request) s w).1.1.2 = configs s.
Proof.
  unfold PushAsync, Conf_deref. exec_simpl.
  pose proof (checkSessionID_configs h s w) as Hs.
  destruct (exec h checkSessionID s w) as [[[o s1] w1] t1]. simpl in Hs.
  destruct o as [[sess [e|]]|msg]; exec_simpl; [done| |done].
  repeat exec_case h; done.
Qed.

Lemma Disburse_configs {W} (h : Handler W) (request : Request) (s : State) (w : W) :
  configs (exec h (Disburse request) s w).1.1.2 = configs s.
Proof.
  unfold Disburse, Conf_deref. exec_simpl.
  pose proof (checkSessionID_configs h s w) as Hs.
  destruct (exec h checkSessionID s w) as [[[o s1] w1] t1]. simpl in Hs.
  destruct o as [[sess [e|]]|msg]; exec_simpl; [done| |done].
  repeat exec_case h; done.
Qed.

Lemma CallbackServeHTTP_configs {W} (h : Handler W) (writer : http_ResponseWriter)
    (request : http_Request) (s : State) (w : W) :
  configs (exec h (CallbackServeHTTP writer request) s w).1.1.2 = configs s.
Proof.
  unfold CallbackServeHTTP. exec_simpl. repeat exec_case h; done.
Qed.

Lemma perform_configs {W} (h : Handler W) (op : Operation) (s : State) (w : W) :
  configs (exec h (perform op) s w).1.1.2 = configs s.
Proof.
  destruct op as [req| |request|request|writer request]; simpl.
  - unfold QueryTx. by exec_simpl.
  - pose proof (SessionID_configs h s w) as Hs. exec_simpl.
    destruct (exec h SessionID s w) as [[[[?|?] ?] ?] ?]; by exec_simpl.
  - pose proof (PushAsync_configs h request s w) as Hs. exec_simpl.
    destruct (exec h (PushAsync request) s w) as [[[[?|?] ?] ?] ?]; by exec_simpl.
  - pose proof (Disburse_configs h request s w) as Hs. exec_simpl.
    destruct (exec h (Disburse request) s w) as [[[[?|?] ?] ?] ?]; by exec_simpl.
  - apply CallbackServeHTTP_configs.
Qed.

Lemma perform_all_configs {W} (h : Handler W) (ops : list Operation) (s : State) (w : W) :
  configs (exec h (perform_all ops) s w).1.1.2 = configs s.
Proof.
  revert s w. induction ops as [|op ops IH]; intros s w; simpl.
  - by exec_simpl.
  - pose proof (perform_configs h op s w) as Hs. rewrite exec_bind.
    destruct (exec h (perform op) s w) as [[[[[]|?] s1] w1] t1]; simpl in Hs |- *.
    + pose proof (IH s1 w1) as Hs1.
      destruct (exec h (perform_all ops) s1 w1) as [[[o2 s2] w2] t2].
      simpl in Hs1 |- *. congruence.
    + done.
Qed.

Lemma NewClient_store {W} (h : Handler W) (conf : loc)
    (callbacker : option PushCallbackHandler) (opts : list ClientOption)
    (σ : gmap loc Config.t) (w : W) :
  Forall keeps_configs opts ->
  let σ' := (exec h (NewClient conf callbacker opts) σ w).1.1.2 in
  σ' = σ \/
  exists l cfg1 p, σ !! l = Some cfg1 /\ σ' = <[l := Config.set_BasePath p cfg1]> σ.
Proof.
  intros Hopts. unfold NewClient. exec_simpl.
  destruct (σ !! conf) as [cfg|] eqn:Hconf; exec_simpl; [|by left].
  rewrite (apply_options_keeps_configs _ _ Hopts). simpl.
  set (s1 := apply_options opts _).
  destruct (σ !! Client.Conf (self s1)) as [cfg1|] eqn:Hcfg1; exec_simpl; [|by left].
  right. exists (Client.Conf (self s1)), cfg1.
  eexists. split; [done|].
  repeat exec_case h; reflexivity.
Qed.

(** C5 (amended). Through [NewClient], whose options do not write to the
    configuration, every field of every [Config] other than [BasePath] keeps
    the value supplied by the caller; and no sequence of client operations
    changes any field, [BasePath] included, of any [Config]. [BasePath] is
    the exception: when the options moreover do not assign [Conf] and leave
    [Conf] and [base] usable, [NewClient] returns a client on the caller's
    [Config] and has overwritten the [BasePath] of that [Config], and nothing
    else in the store, with [https://<host>/<platform>/ipg/v2/<market>/],
    the host being the [BasePath] supplied. *)
Theorem Config_kept_but_BasePath :
  (forall {W} (h : Handler W) conf callbacker opts (σ : gmap loc Config.t) (w : W),
     Forall keeps_configs opts ->
     forall l cfg, σ !! l = Some cfg ->
       exists cfg',
         (exec h (NewClient conf callbacker opts) σ w).1.1.2 !! l = Some cfg' /\
         same_but_BasePath cfg cfg') /\
  (forall {W} (h : Handler W) (ops : list Operation) (s : State) (w : W),
     configs (exec h (perform_all ops) s w).1.1.2 = configs s) /\
  (forall {W} (h : Handler W) conf callbacker opts (σ : gmap loc Config.t) (w : W) cfg,
     σ !! conf = Some cfg ->
     Forall keeps_configs opts ->
     Forall keeps_Conf opts ->
     Forall sound_option opts ->
     exists c σ' w' tr cfg',
       exec h (NewClient conf callbacker opts) σ w = (Returned c, σ', w', tr) /\
       Client.Conf c = conf /\
       σ' !! conf = Some cfg' /\
       Config.BasePath cfg' =
         "https://" +:+ Config.BasePath cfg +:+ "/" +:+
         Platform_String (Config.Platform cfg) +:+ "/ipg/v2/" +:+
         Market_URLContextValue (Config.Market cfg) +:+ "/" /\
       Config.BasePath cfg' <> Config.BasePath cfg /\
       same_but_BasePath cfg cfg' /\
       forall l, l <> conf -> σ' !! l = σ !! l).
Proof.
  split; [|split].
  - intros W h conf callbacker opts σ w Hopts l cfg Hl.
    destruct (NewClient_store h conf callbacker opts σ w Hopts)
      as [->|(l1 & cfg1 & p & Hl1 & ->)].
    + exists cfg. split; [done|]. apply same_but_BasePath_refl.
    + rewrite lookup_insert. case_decide as Heq.
      * subst l1. rewrite Hl in Hl1. injection Hl1 as <-.
        eexists. split; [done|]. apply same_but_BasePath_set.
      * exists cfg. split; [done|]. apply same_but_BasePath_refl.
  - intros W h ops s w. apply perform_all_configs.
  - intros W h conf callbacker opts σ w cfg Hconf Hconfigs HConf Hopts.
    destruct (NewClient_returns h conf callbacker opts σ w cfg Hconf Hopts)
      as (cfg1 & cfg2 & b & Hcfg1 & Hb & Hcfg2 & Hexec).
    rewrite (apply_options_keeps_Conf _ _ HConf),
      (apply_options_keeps_configs _ _ Hconfigs) in Hcfg1, Hexec.
    simpl in Hcfg1, Hexec. rewrite Hconf in Hcfg1. injection Hcfg1 as <-.
    do 5 eexists. split; [exact Hexec|]. simpl.
    split; [by rewrite (apply_options_keeps_Conf _ _ HConf)|].
    split; [apply lookup_insert_eq|]. simpl.
    split; [reflexivity|]. split.
    + pose proof (base_path_url_longer (Config.BasePath cfg)
                    (Platform_String (Config.Platform cfg))
                    (Market_URLContextValue (Config.Market cfg))) as Hlen.
      intros Heq.
      replace (base_path_url (Config.BasePath cfg)
                 (Platform_String (Config.Platform cfg))
                 (Market_URLContextValue (Config.Market cfg)))
        with (Config.BasePath cfg) in Hlen by (symmetry; exact Heq).
      lia.
    + split; [apply same_but_BasePath_set|].
      intros l Hl. by rewrite lookup_insert_ne.
Qed.

(** ** The fresh client *)

(** C10 (amended). [NewClient], given options that do not assign the
    session fields, returns a client whose session expiration is the instant
    read from the clock during construction and whose session id is the
    empty string. Whenever the clock later shows that instant or a later
    one, [PushAsync] and [Disburse] on this client start with a session
    refresh: they read the clock and ask for the encryption of the API key;
    the key encrypted, they send the session request under that bearer
    token; the session granted, they store its id and its expiration, and it
    is this new id, not the empty one, that they encrypt for the payment. *)
Theorem fresh_client_session_expired {W} (h : Handler W) (conf : loc)
    (callbacker : option PushCallbackHandler) (opts : list ClientOption)
    (σ : gmap loc Config.t) (w : W) (cfg : Config.t) :
  σ !! conf = Some cfg ->
  Forall sound_option opts ->
  Forall keeps_session opts ->
  exists c σ' w' conf' b,
    let now := (h _ time_Now w).1 in
    exec h (NewClient conf callbacker opts) σ w =
      (Returned c, σ', w', [Ev time_Now now]) /\
    Client.sessionExpiration c = now /\
    Client.sessionID c = Some "" /\
    σ' !! Client.Conf c = Some conf' /\
    Client.base c = Some b /\
    forall (w1 : W) (request : Request),
      now <= (h _ time_Now w1).1 ->
      let s := mkState c σ' in
      let runs : list (State * list Event) :=
        [ ((exec h (PushAsync request) s w1).1.1.2, (exec h (PushAsync request) s w1).2);
          ((exec h (Disburse request) s w1).1.1.2, (exec h (Disburse request) s w1).2) ] in
      let clock := Ev time_Now (h _ time_Now w1).1 in
      let w2 := (h _ time_Now w1).2 in
      let key := encryptKey (Config.APIKey conf') (Config.PublicKey conf') in
      Forall (fun r => exists rest, r.2 = clock :: Ev key (h _ key w2).1 :: rest) runs /\
      (forall token e w3,
         h _ key w2 = ((token, Some e), w3) ->
         Forall (fun r => r.1 = s /\ r.2 = [clock; Ev key (token, Some e)]) runs) /\
      forall token w3,
        h _ key w2 = ((token, None), w3) ->
        let ask :=
          base_Do_session b
            (makeInternalRequest c σ' requestType.sessionID None
               [base_WithRequestHeaders (bearer_headers token)])
            zero in
        Forall (fun r => exists rest,
                  r.2 = clock :: Ev key (token, None) :: Ev ask (h _ ask w3).1 :: rest)
          runs /\
        forall response res w4,
          h _ ask w3 = ((response, Some res, None), w4) ->
          Response_Error res = None ->
          OutputErr response = "" ->
          let granted := Ev time_Now (h _ time_Now w4).1 in
          let w5 := (h _ time_Now w4).2 in
          let stored :=
            mkState
              (Client.set_sessionID (Some (ID response))
                 (Client.set_sessionExpiration
                    ((h _ time_Now w4).1 +
                     wrap64 (Config.SessionLifetimeMinutes conf' * time_Minute)) c))
              σ' in
          let pay := encryptKey (ID response) (Config.PublicKey conf') in
          Forall (fun r =>
                    r.1 = stored /\
                    exists rest,
                      r.2 = clock :: Ev key (token, None) ::
                            Ev ask (response, Some res, None) :: granted ::
                            Ev pay (h _ pay w5).1 :: rest)
            runs.
Proof.
  intros Hconf Hopts Hsession.
  destruct (NewClient_returns h conf callbacker opts σ w cfg Hconf Hopts)
    as (cfg1 & cfg2 & b & Hcfg1 & Hb & Hcfg2 & Hexec).
  destruct (apply_options_keeps_session opts
              (mkState (initial_client conf callbacker (h _ time_Now w).1) σ) Hsession)
    as [Hid Hexp].
  match type of Hexec with
  | _ = (Returned ?c0, ?σ0, _, _) => set (c := c0) in *; set (σ' := σ0) in *
  end.
  assert (Client.sessionExpiration c = (h _ time_Now w).1) as Hc_exp by exact Hexp.
  assert (Client.sessionID c = Some "") as Hc_id by exact Hid.
  assert (exists conf', σ' !! Client.Conf c = Some conf') as [conf' Hc_conf].
  { eexists. subst σ'. apply lookup_insert_eq. }
  assert (Client.base c = Some b) as Hc_base by exact Hb.
  clearbody c σ'.
  exists c, σ', (h _ time_Now w).2, conf', b. intros now.
  split; [exact Hexec|]. split; [exact Hc_exp|]. split; [exact Hc_id|].
  split; [exact Hc_conf|]. split; [exact Hc_base|].
  intros w1 request Hlater s runs clock w2 key.
  assert (~ (h _ time_Now w1).1 < Client.sessionExpiration c) as Hexpired.
  { rewrite Hc_exp. subst now. lia. }
  split; [|split].
  - subst runs; (constructor; [|constructor; [|constructor]]); simpl;
      unfold PushAsync, Disburse, checkSessionID, SessionID, getEncryptionKey,
        Conf_deref, set_client; exec_simpl;
      (destruct (decide ((h _ time_Now w1).1 < Client.sessionExpiration c));
         [done|]);
      exec_simpl; rewrite Hc_conf; exec_simpl; fold key; fold w2;
      repeat exec_case h; by eexists.
  - intros token e w3 Hkey.
    subst runs; (constructor; [|constructor; [|constructor]]); simpl;
      unfold PushAsync, Disburse, checkSessionID, SessionID, getEncryptionKey,
        Conf_deref, set_client; exec_simpl;
      (destruct (decide ((h _ time_Now w1).1 < Client.sessionExpiration c));
         [done|]);
      exec_simpl; rewrite Hc_conf; exec_simpl; fold key; fold w2;
      rewrite Hkey; by exec_simpl.
  - intros token w3 Hkey ask. split.
    + subst runs; (constructor; [|constructor; [|constructor]]); simpl;
        unfold PushAsync, Disburse, checkSessionID, SessionID, getEncryptionKey,
          Conf_deref, set_client; exec_simpl;
        (destruct (decide ((h _ time_Now w1).1 < Client.sessionExpiration c));
           [done|]);
        exec_simpl; rewrite Hc_conf; exec_simpl; fold key; fold w2;
        rewrite Hkey; exec_simpl; rewrite Hc_base; exec_simpl;
        fold (bearer_headers token); fold ask;
        repeat exec_case h; by eexists.
    + intros response res w4 Hask Hres Hout granted w5 stored pay.
      subst runs; (constructor; [|constructor; [|constructor]]); simpl;
        unfold PushAsync, Disburse, checkSessionID, SessionID, getEncryptionKey,
          Conf_deref, set_client; exec_simpl;
        (destruct (decide ((h _ time_Now w1).1 < Client.sessionExpiration c));
           [done|]);
        exec_simpl; rewrite Hc_conf; exec_simpl; fold key; fold w2;
        rewrite Hkey; exec_simpl; rewrite Hc_base; exec_simpl;
        fold (bearer_headers token); fold ask; rewrite Hask; exec_simpl;
        rewrite Hres; exec_simpl;
        (destruct (decide (OutputErr response ≠ "")); [done|]);
        exec_simpl; rewrite Hc_conf; exec_simpl; rewrite Hc_conf; exec_simpl;
        fold pay; fold w5;
        repeat exec_case h; (split; [reflexivity | by eexists]).
Qed.

(** * Further properties of [service.go]

    In this part [getEncryptionKey] is, like [checkSessionID], a step of
    which only the result is used: the statements hold for whatever the
    helper does to reach it. *)

(** ** [SessionID]: the failures, one by one *)

(** X1. When [getEncryptionKey] fails, [SessionID] returns the zero
    response with that very error and does nothing more: no call follows
    those of the helper, and in particular no HTTP call. *)
Theorem SessionID_encryption_failure {W} (h : Handler W) (s s0 : State) (w w1 : W)
    (token : string) (e : GoError) (t0 : list Event) :
  exec h getEncryptionKey s w = (Returned (token, Some e), s0, w1, t0) ->
  exec h SessionID s w = (Returned (zero, Some e), s0, w1, t0).
Proof.
  intros Hkey. unfold SessionID. exec_simpl. rewrite Hkey. exec_simpl.
  by rewrite app_nil_r.
Qed.

(** X2. When the HTTP executor fails, [SessionID] returns the response
    variable as the executor left it together with the executor's own error
    value; the clock is not read and the session fields are not assigned. *)
Theorem SessionID_transport_failure {W} (h : Handler W) (s s0 : State) (w w1 w2 : W)
    (b : base_Client) (token : string) (t0 : list Event)
    (response : SessionResponse) (res : option base_Response) (e : GoError) :
  exec h getEncryptionKey s w = (Returned (token, None), s0, w1, t0) ->
  Client.base (self s0) = Some b ->
  let re := makeInternalRequest (self s0) (configs s0) requestType.sessionID None
              [base_WithRequestHeaders (bearer_headers token)] in
  h _ (base_Do_session b re zero) w1 = ((response, res, Some e), w2) ->
  exec h SessionID s w =
    (Returned (response, Some e), s0, w2,
     t0 ++ [Ev (base_Do_session b re zero) (response, res, Some e)]).
Proof.
  intros Hkey Hbase re Hdo.
  unfold SessionID. exec_simpl. rewrite Hkey. exec_simpl.
  rewrite Hbase. exec_simpl.
  fold (bearer_headers token). fold re. rewrite Hdo. by exec_simpl.
Qed.

(** X3. When the executor succeeds but its response object carries an
    error, [SessionID] returns the zero response, not the decoded one, and an
    error that wraps the object's error (so that [errors.Unwrap] gives it
    back) under the message "could not fetch session id: ..."; this
    whatever [OutputErr] holds. The clock is not read and the session fields
    are not assigned. *)
Theorem SessionID_gateway_error {W} (h : Handler W) (s s0 : State) (w w1 w2 : W)
    (b : base_Client) (token : string) (t0 : list Event)
    (response : SessionResponse) (res : base_Response) (resErr : GoError) :
  exec h getEncryptionKey s w = (Returned (token, None), s0, w1, t0) ->
  Client.base (self s0) = Some b ->
  let re := makeInternalRequest (self s0) (configs s0) requestType.sessionID None
              [base_WithRequestHeaders (bearer_headers token)] in
  h _ (base_Do_session b re zero) w1 = ((response, Some res, None), w2) ->
  Response_Error res = Some resErr ->
  exec h SessionID s w =
    (Returned
       (zero, Some (wrapError ("could not fetch session id: " +:+ Error resErr) resErr)),
     s0, w2,
     t0 ++ [Ev (base_Do_session b re zero) (response, Some res, None)]).
Proof.
  intros Hkey Hbase re Hdo Hres.
  unfold SessionID. exec_simpl. rewrite Hkey. exec_simpl.
  rewrite Hbase. exec_simpl.
  fold (bearer_headers token). fold re. rewrite Hdo. exec_simpl.
  rewrite Hres. by exec_simpl.
Qed.

(** X4. When the executor succeeds, the response object carries no error
    and [OutputErr] is not empty, [SessionID] returns the decoded response
    itself with the error "could not fetch session id: <OutputErr>", which
    wraps nothing. The clock is not read and the session fields are not
    assigned. *)
Theorem SessionID_business_error {W} (h : Handler W) (s s0 : State) (w w1 w2 : W)
    (b : base_Client) (token : string) (t0 : list Event)
    (response : SessionResponse) (res : base_Response) :
  exec h getEncryptionKey s w = (Returned (token, None), s0, w1, t0) ->
  Client.base (self s0) = Some b ->
  let re := makeInternalRequest (self s0) (configs s0) requestType.sessionID None
              [base_WithRequestHeaders (bearer_headers token)] in
  h _ (base_Do_session b re zero) w1 = ((response, Some res, None), w2) ->
  Response_Error res = None ->
  OutputErr response <> "" ->
  exec h SessionID s w =
    (Returned
       (response,
        Some (errorString ("could not fetch session id: " +:+ OutputErr response))),
     s0, w2,
     t0 ++ [Ev (base_Do_session b re zero) (response, Some res, None)]).
Proof.
  intros Hkey Hbase re Hdo Hres Hout.
  unfold SessionID. exec_simpl. rewrite Hkey. exec_simpl.
  rewrite Hbase. exec_simpl.
  fold (bearer_headers token). fold re. rewrite Hdo. exec_simpl.
  rewrite Hres. exec_simpl.
  by destruct (decide (OutputErr response ≠ "")).
Qed.

(** X5. When the executor returns no error and a [nil] response object,
    [SessionID] panics on reading [res.Error], after the HTTP call and
    before any assignment to the session fields. *)
Theorem SessionID_nil_response_panics {W} (h : Handler W) (s s0 : State) (w w1 w2 : W)
    (b : base_Client) (token : string) (t0 : list Event)
    (response : SessionResponse) :
  exec h getEncryptionKey s w = (Returned (token, None), s0, w1, t0) ->
  Client.base (self s0) = Some b ->
  let re := makeInternalRequest (self s0) (configs s0) requestType.sessionID None
              [base_WithRequestHeaders (bearer_headers token)] in
  h _ (base_Do_session b re zero) w1 = ((response, None, None), w2) ->
  exec h SessionID s w =
    (Panicked nil_dereference, s0, w2,
     t0 ++ [Ev (base_Do_session b re zero) (response, None, None)]).
Proof.
  intros Hkey Hbase re Hdo.
  unfold SessionID. exec_simpl. rewrite Hkey. exec_simpl.
  rewrite Hbase. exec_simpl.
  fold (bearer_headers token). fold re. rewrite Hdo. by exec_simpl.
Qed.

(** ** [SessionID]: what every run has in common *)

(** X6. After [getEncryptionKey], every run of [SessionID] calls the HTTP
    executor at most once (nothing is retried), and it reads the clock
    exactly when it returns without error, and then once. *)
Theorem SessionID_call_budget {W} (h : Handler W) (s : State) (w : W) :
  exists t2,
    (exec h SessionID s w).2 = (exec h getEncryptionKey s w).2 ++ t2 /\
    (count is_base_Do t2 <= 1)%nat /\
    ((exists response, (exec h SessionID s w).1.1.1 = Returned (response, None)) /\
       count is_time_Now t2 = 1%nat
     \/
     (forall response, (exec h SessionID s w).1.1.1 <> Returned (response, None)) /\
       count is_time_Now t2 = 0%nat).
Proof.
  unfold SessionID, Conf_deref, set_client. exec_simpl.
  destruct (exec h getEncryptionKey s w) as [[[o s0] w1] t0].
  destruct o as [[token [e|]]|msg]; exec_simpl.
  1, 3: exists []; rewrite app_nil_r; unfold count; simpl;
    (split; [done|]); (split; [lia|]); by right.
  repeat exec_case h; eexists; (split; [reflexivity|]);
    unfold count; simpl; (split; [lia|]);
    first [ by right | by left; eauto ].
Qed.

(** The state after a run that returns no error. *)
Lemma SessionID_nil_error_state {W} (h : Handler W) (s s' : State) (w w' : W)
    (response : SessionResponse) (tr : list Event) :
  exec h SessionID s w = (Returned (response, None), s', w', tr) ->
  let s0 := (exec h getEncryptionKey s w).1.1.2 in
  exists conf now,
    configs s0 !! Client.Conf (self s0) = Some conf /\
    last tr = Some (Ev time_Now now) /\
    s' = mkState
           (Client.set_sessionID (Some (ID response))
              (Client.set_sessionExpiration
                 (now + wrap64 (Config.SessionLifetimeMinutes conf * time_Minute))
                 (self s0)))
           (configs s0) /\
    OutputErr response = "".
Proof.
  unfold SessionID, Conf_deref, set_client. exec_simpl.
  destruct (exec h getEncryptionKey s w) as [[[o s0] w1] t0].
  destruct o as [[token [e|]]|msg]; exec_simpl; [discriminate| |discriminate].
  destruct (Client.base (self s0)) as [b|]; exec_simpl; [|discriminate].
  next_call h. destruct x as [[resp res] [err|]]; exec_simpl; [discriminate|].
  destruct res as [r|]; exec_simpl; [|discriminate].
  destruct (Response_Error r) as [resErr|]; exec_simpl; [discriminate|].
  destruct (decide (OutputErr resp ≠ "")) as [Hne|Heq]; exec_simpl; [discriminate|].
  destruct (configs s0 !! Client.Conf (self s0)) as [conf|] eqn:Hconf;
    exec_simpl; [|discriminate].
  next_call h.
  intros [= <- <- <- <-]. exists conf, x.
  split; [done|]. split; [by rewrite last_app|]. split; [done|].
  by destruct (decide (OutputErr resp = "")).
Qed.

(** X7. What a caller learns from a [nil] error: the returned response has
    an empty [OutputErr], the cached session id is the [ID] of that very
    response, the clock was read last, and the expiration is that reading
    plus the wrapped product of the configured lifetime and [time.Minute].
    Apart from the two session fields the client is as [getEncryptionKey]
    left it. *)
Theorem SessionID_nil_error {W} (h : Handler W) (s s' : State) (w w' : W)
    (response : SessionResponse) (tr : list Event) :
  exec h SessionID s w = (Returned (response, None), s', w', tr) ->
  let s0 := (exec h getEncryptionKey s w).1.1.2 in
  OutputErr response = "" /\
  Client.sessionID (self s') = Some (ID response) /\
  exists conf now,
    configs s0 !! Client.Conf (self s0) = Some conf /\
    last tr = Some (Ev time_Now now) /\
    Client.sessionExpiration (self s') =
      now + wrap64 (Config.SessionLifetimeMinutes conf * time_Minute) /\
    s' = mkState
           (Client.set_sessionID (Some (ID response))
              (Client.set_sessionExpiration (Client.sessionExpiration (self s'))
                 (self s0)))
           (configs s0).
Proof.
  intros Hexec s0.
  destruct (SessionID_nil_error_state h s s' w w' response tr Hexec)
    as (conf & now & Hconf & Hlast & -> & Hout).
  split; [exact Hout|]. split; [reflexivity|]. by exists conf, now.
Qed.

(** X8. After a successful acquisition with a lifetime whose length fits a
    [time.Duration], the stored expiration lies after the instant read from
    the clock exactly when the configured lifetime is positive: a lifetime
    of zero, the value of an unset field, or a negative one stores a session
    that is expired from the start. *)
Theorem SessionID_expiration_future_iff {W} (h : Handler W) (s s' : State) (w w' : W)
    (response : SessionResponse) (tr : list Event) (conf : Config.t) :
  exec h SessionID s w = (Returned (response, None), s', w', tr) ->
  let s0 := (exec h getEncryptionKey s w).1.1.2 in
  configs s0 !! Client.Conf (self s0) = Some conf ->
  int64_range (Config.SessionLifetimeMinutes conf * time_Minute) ->
  exists now,
    last tr = Some (Ev time_Now now) /\
    Client.sessionExpiration (self s') =
      now + Config.SessionLifetimeMinutes conf * time_Minute /\
    (now < Client.sessionExpiration (self s') <->
     0 < Config.SessionLifetimeMinutes conf).
Proof.
  intros Hexec s0 Hconf Hfit.
  destruct (SessionID_nil_error_state h s s' w w' response tr Hexec)
    as (conf' & now & Hconf' & Hlast & -> & _).
  fold s0 in Hconf'. rewrite Hconf in Hconf'. injection Hconf' as <-.
  exists now. split; [exact Hlast|]. simpl.
  rewrite (wrap64_id _ Hfit). split; [done|]. unfold time_Minute. lia.
Qed.

(** ** [PushAsync] and [Disburse]: what every run has in common *)

(** X9. [PushAsync] and [Disburse] assign no field of the client and write
    to no [Config]: in every run, whether it returns or panics, the state
    they end in is the one [checkSessionID] left. *)
Theorem payment_leaves_state {W} (h : Handler W) (request : Request) (s : State) (w : W) :
  (exec h (PushAsync request) s w).1.1.2 = (exec h checkSessionID s w).1.1.2 /\
  (exec h (Disburse request) s w).1.1.2 = (exec h checkSessionID s w).1.1.2.
Proof.
  split.
  1, 2:
    unfold PushAsync, Disburse, Conf_deref; exec_simpl;
    destruct (exec h checkSessionID s w) as [[[o s1] w1] t1];
    destruct o as [[sess [e|]]|msg]; exec_simpl; [done| |done];
    repeat exec_case h; done.
Qed.

(** X10. After [checkSessionID], every run of [PushAsync] and of
    [Disburse] encrypts at most once, calls the HTTP executor at most once
    (nothing is retried) and never reads the clock. *)
Theorem payment_call_budget {W} (h : Handler W) (request : Request) (s : State) (w : W) :
  (exists t2,
     (exec h (PushAsync request) s w).2 = (exec h checkSessionID s w).2 ++ t2 /\
     (count is_base_Do t2 <= 1)%nat /\
     (length t2 <= 3)%nat /\
     count is_time_Now t2 = 0%nat) /\
  (exists t2,
     (exec h (Disburse request) s w).2 = (exec h checkSessionID s w).2 ++ t2 /\
     (count is_base_Do t2 <= 1)%nat /\
     (length t2 <= 3)%nat /\
     count is_time_Now t2 = 0%nat).
Proof.
  split.
  1, 2:
    unfold PushAsync, Disburse, Conf_deref; exec_simpl;
    destruct (exec h checkSessionID s w) as [[[o s1] w1] t1];
    destruct o as [[sess [e|]]|msg]; exec_simpl;
    [ exists []; rewrite app_nil_r; unfold count; simpl; repeat split; lia
    | 
    | exists []; rewrite app_nil_r; unfold count; simpl; repeat split; lia ];
    repeat exec_case h; eexists; (split; [reflexivity|]);
    unfold count; simpl; repeat split; lia.
Qed.

(** X11. What a caller learns from a [nil] error of [PushAsync] or
    [Disburse]: [checkSessionID] returned a token without error, the HTTP
    executor was called, and the returned response has an empty
    [OutputErr]. *)
Theorem payment_nil_error {W} (h : Handler W) (request : Request) (s s' : State)
    (w w' : W) (tr : list Event) :
  (forall response : PushAsyncResponse,
     exec h (PushAsync request) s w = (Returned (response, None), s', w', tr) ->
     OutputErr response = "" /\
     (exists sess, (exec h checkSessionID s w).1.1.1 = Returned (sess, None)) /\
     count is_base_Do tr = S (count is_base_Do (exec h checkSessionID s w).2)) /\
  (forall response : DisburseResponse,
     exec h (Disburse request) s w = (Returned (response, None), s', w', tr) ->
     OutputErr response = "" /\
     (exists sess, (exec h checkSessionID s w).1.1.1 = Returned (sess, None)) /\
     count is_base_Do tr = S (count is_base_Do (exec h checkSessionID s w).2)).
Proof.
  split; intros response.
  1, 2:
    unfold PushAsync, Disburse, Conf_deref; exec_simpl;
    destruct (exec h checkSessionID s w) as [[[o s1] w1] t1];
    destruct o as [[sess [e|]]|msg]; exec_simpl; [discriminate| |discriminate];
    repeat exec_case h; try discriminate;
    intros [= <- <- <- <-];
    (split;
      [ match goal with
        | |- OutputErr ?r = "" => by destruct (decide (OutputErr r = ""))
        end |]);
    (split; [by eexists|]);
    unfold count; rewrite List.filter_app, length_app; simpl; lia.
Qed.

(** ** [CallbackServeHTTP]: what every run has in common *)

(** X12. [CallbackServeHTTP] changes nothing in the client or in any
    [Config], whether it returns or panics, and it reads no field other than
    [rv], [pushCallbackFunc] and [rp]: on two clients that agree on these
    three it makes the same calls and ends the same way. *)
Theorem callback_stateless {W} (h : Handler W) (writer : http_ResponseWriter)
    (request : http_Request) (s s' : State) (w : W) :
  (exec h (CallbackServeHTTP writer request) s w).1.1.2 = s /\
  (Client.rv (self s') = Client.rv (self s) ->
   Client.pushCallbackFunc (self s') = Client.pushCallbackFunc (self s) ->
   Client.rp (self s') = Client.rp (self s) ->
   (exec h (CallbackServeHTTP writer request) s' w).1.1.1 =
     (exec h (CallbackServeHTTP writer request) s w).1.1.1 /\
   (exec h (CallbackServeHTTP writer request) s' w).1.2 =
     (exec h (CallbackServeHTTP writer request) s w).1.2 /\
   (exec h (CallbackServeHTTP writer request) s' w).2 =
     (exec h (CallbackServeHTTP writer request) s w).2).
Proof.
  split.
  - unfold CallbackServeHTTP. exec_simpl. repeat exec_case h; done.
  - intros Hrv Hhd Hrp. unfold CallbackServeHTTP. exec_simpl.
    repeat first [ rewrite Hrv | rewrite Hhd | rewrite Hrp | exec_case h ]; done.
Qed.

(** X13. [CallbackServeHTTP] answers the inbound call exactly once when it
    returns, and the answer is the last thing it does; when it panics (a
    [nil] receiver, handler or replier) it has written no answer. *)
Theorem callback_one_reply {W} (h : Handler W) (writer : http_ResponseWriter)
    (request : http_Request) (s : State) (w : W) :
  match (exec h (CallbackServeHTTP writer request) s w).1.1.1 with
  | Returned _ =>
      count is_reply (exec h (CallbackServeHTTP writer request) s w).2 = 1%nat /\
      exists ev,
        last (exec h (CallbackServeHTTP writer request) s w).2 = Some ev /\
        is_reply ev = true
  | Panicked _ =>
      count is_reply (exec h (CallbackServeHTTP writer request) s w).2 = 0%nat
  end.
Proof.
  unfold CallbackServeHTTP. exec_simpl.
  repeat exec_case h; unfold count; simpl; try done;
    (split; [done|]); by eexists.
Qed.

(** X14. The callback handler is called at most once, only after the
    receiver has decoded the body without error, and with exactly the body
    the receiver decoded. *)
Theorem callback_handler_gets_body {W} (h : Handler W) (writer : http_ResponseWriter)
    (request : http_Request) (s : State) (w : W) :
  let tr := (exec h (CallbackServeHTTP writer request) s w).2 in
  omap handled_request tr = [] \/
  exists rv body w1,
    Client.rv (self s) = Some rv /\
    h _ (Receive rv "mpesa push callback" request zero) w = ((body, None), w1) /\
    omap handled_request tr = [body].
Proof.
  unfold CallbackServeHTTP. exec_simpl.
  destruct (Client.rv (self s)) as [rv|]; exec_simpl; [|by left].
  next_call h. destruct x as [body [err|]]; exec_simpl; [by left|].
  destruct (Client.pushCallbackFunc (self s)) as [hd|]; exec_simpl; [|by left].
  right. exists rv, body, w0. split; [done|]. split; [done|].
  repeat exec_case h; done.
Qed.

(** ** [NewClient]: edge cases and composition *)

Lemma apply_options_keeps_pushCallbackFunc (opts : list ClientOption) (s : State) :
  Forall keeps_pushCallbackFunc opts ->
  Client.pushCallbackFunc (self (apply_options opts s)) =
    Client.pushCallbackFunc (self s).
Proof.
  intros Hopts. revert s.
  induction Hopts as [|opt opts Hopt _ IH]; intros s; simpl; [done|].
  by rewrite IH.
Qed.

(** X15. With a [nil] configuration [NewClient] panics on its first
    statement: the clock is not read, no option runs and no [Config] is
    written. *)
Theorem NewClient_nil_conf_panics {W} (h : Handler W) (conf : loc)
    (callbacker : option PushCallbackHandler) (opts : list ClientOption)
    (σ : gmap loc Config.t) (w : W) :
  σ !! conf = None ->
  exec h (NewClient conf callbacker opts) σ w = (Panicked nil_dereference, σ, w, []).
Proof.
  intros Hconf. unfold NewClient. exec_simpl. rewrite Hconf. by exec_simpl.
Qed.

(** X16. The client [NewClient] returns always has its request adapter,
    replier and receiver installed, whatever the options assigned to these
    fields. The adapter's platform and market are those of the client's own
    configuration, its service provider code is read from the configuration
    the caller supplied; replier and receiver are built from the logger and
    debug mode of the client's executor as the options left it. *)
Theorem NewClient_installs_collaborators {W} (h : Handler W) (conf : loc)
    (callbacker : option PushCallbackHandler) (opts : list ClientOption)
    (σ : gmap loc Config.t) (w : W) (cfg : Config.t) :
  σ !! conf = Some cfg ->
  Forall sound_option opts ->
  exists c σ' w' tr cfg' cfg2 b,
    exec h (NewClient conf callbacker opts) σ w = (Returned c, σ', w', tr) /\
    σ' !! Client.Conf c = Some cfg' /\
    σ' !! conf = Some cfg2 /\
    Client.requestAdapter c =
      Some (requestAdapter.mk _ (Config.Platform cfg') (Config.Market cfg')
              (Config.ServiceProvideCode cfg2)) /\
    Client.base c = Some b /\
    Client.rp c = Some (base_NewReplier (Logger b) (DebugMode b)) /\
    Client.rv c = Some (base_NewReceiver (Logger b) (DebugMode b)).
Proof.
  intros Hconf Hopts.
  destruct (NewClient_returns h conf callbacker opts σ w cfg Hconf Hopts)
    as (cfg1 & cfg2 & b & Hcfg1 & Hb & Hcfg2 & Hexec).
  do 4 eexists. exists (Config.set_BasePath
    (base_path_url (Config.BasePath cfg) (Platform_String (Config.Platform cfg1))
       (Market_URLContextValue (Config.Market cfg1))) cfg1), cfg2, b.
  split; [exact Hexec|]. simpl.
  split; [apply lookup_insert_eq|]. split; [exact Hcfg2|].
  split; [reflexivity|]. split; [exact Hb|]. by split.
Qed.

(** X17. Building two clients from the same [Config], one after the other
    and without options, nests the base path: the second construction takes
    the URL written by the first for the host. *)
Theorem NewClient_twice_nests_base_path {W} (h : Handler W) (conf : loc)
    (callbacker1 callbacker2 : option PushCallbackHandler)
    (σ : gmap loc Config.t) (w : W) (cfg : Config.t) :
  σ !! conf = Some cfg ->
  let first := exec h (NewClient conf callbacker1 []) σ w in
  let second := exec h (NewClient conf callbacker2 []) first.1.1.2 first.1.2 in
  let url host :=
    base_path_url host (Platform_String (Config.Platform cfg))
      (Market_URLContextValue (Config.Market cfg)) in
  exists c1 c2 cfg2,
    first.1.1.1 = Returned c1 /\
    second.1.1.1 = Returned c2 /\
    Client.Conf c1 = conf /\ Client.Conf c2 = conf /\
    second.1.1.2 !! conf = Some cfg2 /\
    Config.BasePath cfg2 = url (url (Config.BasePath cfg)).
Proof.
  intros Hconf first second url.
  destruct (NewClient_returns h conf callbacker1 [] σ w cfg Hconf (Forall_nil_2 _))
    as (cfg1 & cfg1' & b1 & Hcfg1 & _ & _ & Hexec1).
  simpl in Hcfg1, Hexec1. rewrite Hconf in Hcfg1. injection Hcfg1 as <-.
  subst second. subst first. rewrite Hexec1. simpl.
  set (σ1 := <[conf := Config.set_BasePath _ cfg]> σ).
  assert (σ1 !! conf =
    Some (Config.set_BasePath (url (Config.BasePath cfg)) cfg)) as Hconf1.
  { apply lookup_insert_eq. }
  destruct (NewClient_returns h conf callbacker2 [] σ1 (h _ time_Now w).2 _ Hconf1
              (Forall_nil_2 _))
    as (cfg2 & cfg2' & b2 & Hcfg2 & _ & _ & Hexec2).
  simpl in Hcfg2, Hexec2. rewrite Hconf1 in Hcfg2. injection Hcfg2 as <-.
  rewrite Hexec2. simpl.
  do 3 eexists. split; [reflexivity|]. split; [reflexivity|].
  split; [reflexivity|]. split; [reflexivity|].
  split; [apply lookup_insert_eq|]. reflexivity.
Qed.

(** X18. On a client built by [NewClient] with a handler, and options that
    leave the handler in place, the receiver, the handler and the replier
    are all installed, so that [CallbackServeHTTP] reads through no [nil]
    field: whenever the calls it makes come back, it returns. (A panic
    raised inside the receiver, the handler or the replier is not modelled;
    the function has no [recover] and would let it through.) *)
Theorem fresh_client_serves_callbacks {W} (h : Handler W) (conf : loc)
    (hd : PushCallbackHandler) (opts : list ClientOption)
    (σ : gmap loc Config.t) (w : W) (cfg : Config.t) :
  σ !! conf = Some cfg ->
  Forall sound_option opts ->
  Forall keeps_pushCallbackFunc opts ->
  exists c σ' w' tr,
    exec h (NewClient conf (Some hd) opts) σ w = (Returned c, σ', w', tr) /\
    is_Some (Client.rv c) /\
    Client.pushCallbackFunc c = Some hd /\
    is_Some (Client.rp c) /\
    forall (w1 : W) writer request,
      (exec h (CallbackServeHTTP writer request) (mkState c σ') w1).1.1.1 =
        Returned tt.
Proof.
  intros Hconf Hopts Hkeeps.
  destruct (NewClient_returns h conf (Some hd) opts σ w cfg Hconf Hopts)
    as (cfg1 & cfg2 & b & Hcfg1 & Hb & Hcfg2 & Hexec).
  pose proof (apply_options_keeps_pushCallbackFunc opts
                (mkState (initial_client conf (Some hd) (h _ time_Now w).1) σ) Hkeeps)
    as Hhd.
  do 4 eexists. split; [exact Hexec|].
  split; [simpl; eauto|]. split; [exact Hhd|]. split; [simpl; eauto|].
  intros w1 writer request.
  unfold CallbackServeHTTP. exec_simpl. next_call h.
  destruct x as [body [err|]]; exec_simpl.
  - next_call h. by destruct x.
  - rewrite Hhd. exec_simpl. next_call h.
    destruct x as [resp [err|]]; exec_simpl; next_call h; by destruct x.
Qed.

(** ** [NewClient]: the supplied [BasePath] never survives *)

(** X19. For every host, platform and market, [NewClient] leaves in the
    caller's [Config] a [BasePath] different from the one supplied, and
    strictly longer; this with options that do not assign [Conf]. *)
Theorem NewClient_always_rewrites_BasePath {W} (h : Handler W) (conf : loc)
    (callbacker : option PushCallbackHandler) (opts : list ClientOption)
    (σ : gmap loc Config.t) (w : W) (cfg : Config.t) :
  σ !! conf = Some cfg ->
  Forall sound_option opts ->
  Forall keeps_Conf opts ->
  exists c σ' w' tr cfg',
    exec h (NewClient conf callbacker opts) σ w = (Returned c, σ', w', tr) /\
    σ' !! conf = Some cfg' /\
    (String.length (Config.BasePath cfg) < String.length (Config.BasePath cfg'))%nat /\
    Config.BasePath cfg' <> Config.BasePath cfg.
Proof.
  intros Hconf Hopts HConf.
  destruct (NewClient_returns h conf callbacker opts σ w cfg Hconf Hopts)
    as (cfg1 & cfg2 & b & Hcfg1 & Hb & Hcfg2 & Hexec).
  rewrite (apply_options_keeps_Conf _ _ HConf) in Hcfg2. simpl in Hcfg2.
  rewrite lookup_insert_eq in Hcfg2. injection Hcfg2 as <-.
  do 5 eexists. split; [exact Hexec|].
  rewrite (apply_options_keeps_Conf _ _ HConf). simpl.
  split; [apply lookup_insert_eq|]. simpl.
  assert (String.length (Config.BasePath cfg) <
          String.length (base_path_url (Config.BasePath cfg)
             (Platform_String (Config.Platform cfg1))
             (Market_URLContextValue (Config.Market cfg1))))%nat as Hlen
    by apply base_path_url_longer.
  split; [exact Hlen|]. intros Heq. rewrite Heq in Hlen. lia.
Qed.

End Theory.

(** * The scenarios of section 8 on the stub gateway *)
Module Scenarios.
Import Stub.

Lemma WithDebugMode_sound : sound_option WithDebugMode.
Proof.
  intros s [Hconf Hbase]. split.
  - split; simpl; [exact Hconf | eauto].
  - intros l Hl. exact Hl.
Qed.

Lemma WithDebugMode_keeps_configs : keeps_configs WithDebugMode.
Proof. intros s. reflexivity. Qed.

Lemma WithDebugMode_keeps_session : keeps_session WithDebugMode.
Proof. intros s. split; reflexivity. Qed.

Lemma WithDebugMode_keeps_Conf : keeps_Conf WithDebugMode.
Proof. intros s. reflexivity. Qed.

(** Scenario A: the gateway grants ["S1"], the lifetime is 5 minutes. *)
Lemma SessionID_success_witness :
  int64_range (5 * time_Minute) /\
  (exec handler SessionID (cached 5) granting).1 =
    (Returned (Answer "S1" "", None),
     mkState
       (Client.set_sessionID (Some "S1")
          (Client.set_sessionExpiration (1000 + 5 * time_Minute) (self (cached 5))))
       (store 5),
     granting).
Proof.
  assert (int64_range (5 * time_Minute)) as Hfit.
  { unfold int64_range, time_Minute. lia. }
  split; [exact Hfit|].
  rewrite (SessionID_success (F := funcs) handler (cached 5) granting granting granting granting
             (conf 5) false "rsa:api-key" (Answer "S1" "") (200, None) 1000
             eq_refl eq_refl eq_refl eq_refl eq_refl eq_refl eq_refl Hfit).
  reflexivity.
Defined.

(** A lifetime of 153722868 minutes, about 292 years, does not fit a
    [time.Duration]: the product wraps around and the session stored by a
    successful acquisition at instant 1000 expires in the past. *)
Lemma SessionID_lifetime_overflow :
  (exec handler SessionID (cached 153722868) granting).1.1.1 =
    Returned (Answer "S1" "", None) /\
  Client.sessionExpiration (self (exec handler SessionID (cached 153722868) granting).1.1.2) =
    -9223371993709550616 /\
  Client.sessionExpiration (self (exec handler SessionID (cached 153722868) granting).1.1.2) <>
    1000 + 153722868 * time_Minute.
Proof.
  split; [reflexivity|]. split; [reflexivity|].
  vm_compute. discriminate.
Qed.

(** Scenario B: the gateway answers [outputErr: "invalid key"]; the cached
    session ["S0"] stays. *)
Lemma SessionID_error_keeps_session_witness :
  (exec handler SessionID (cached 5) rejecting).1.1.1 =
    Returned (Answer "" "invalid key",
              Some (errorString "could not fetch session id: invalid key")) /\
  Client.sessionID (self (exec handler SessionID (cached 5) rejecting).1.1.2) =
    Client.sessionID (self (cached 5)) /\
  Client.sessionExpiration (self (exec handler SessionID (cached 5) rejecting).1.1.2) =
    Client.sessionExpiration (self (cached 5)).
Proof.
  split; [reflexivity|].
  eapply (SessionID_error_keeps_session (F := funcs) handler (cached 5) _ rejecting).
  reflexivity.
Defined.

(** A declined payment on the cached session: the gateway answers
    [outputErr: "insufficient funds"] to both operations. *)
Lemma payment_error_iff_OutputErr_witness :
  (exists err,
     (exec handler (PushAsync "pay") (cached 5) declining).1.1.1 =
       Returned (Answer "" "insufficient funds", err) /\
     (err = None <-> "insufficient funds" = "") /\
     forall e, err = Some e ->
       Error e = "could not perform c2b single stage request: insufficient funds") /\
  (exists err,
     (exec handler (Disburse "pay") (cached 5) declining).1.1.1 =
       Returned (Answer "" "insufficient funds", err) /\
     (err = None <-> "insufficient funds" = "") /\
     forall e, err = Some e ->
       Error e = "could not perform disburse request: insufficient funds").
Proof.
  destruct (payment_error_iff_OutputErr (F := funcs) handler "pay"
              (cached 5) (cached 5) declining declining declining declining
              [Ev time_Now 40] "S0" "rsa:S0" (conf 5)
              (requestAdapter.mk decls Sandbox Tanzania "000000") (Some "000000:pay")
              false (Some (200, None))
              eq_refl eq_refl eq_refl eq_refl eq_refl) as [Hpush Hdisburse].
  split.
  - exact (Hpush (Answer "" "insufficient funds") eq_refl eq_refl).
  - exact (Hdisburse (Answer "" "insufficient funds") eq_refl eq_refl).
Defined.

(** A request that cannot be adapted: the operation stops after the
    encryption of the cached session id, and nothing is sent. *)
Lemma payment_four_steps_witness :
  exec handler (PushAsync "") (cached 5) declining =
    (Returned (Answer "" "", Some (errorString "missing field")), cached 5, declining,
     [Ev time_Now 40; Ev (encryptKey "S0" "public-key") ("rsa:S0", None)]) /\
  exec handler (Disburse "") (cached 5) declining =
    (Returned (Answer "" "", Some (errorString "missing field")), cached 5, declining,
     [Ev time_Now 40; Ev (encryptKey "S0" "public-key") ("rsa:S0", None)]).
Proof.
  destruct (payment_four_steps (F := funcs) handler "" (cached 5) declining)
    as (_ & _ & Hadapt).
  destruct (Hadapt "S0" (cached 5) declining [Ev time_Now 40] (conf 5) "rsa:S0" declining
              (requestAdapter.mk decls Sandbox Tanzania "000000")
              eq_refl eq_refl eq_refl eq_refl) as [Hpush Hdisburse].
  split.
  - exact (Hpush None (errorString "missing field") eq_refl).
  - exact (Hdisburse None (errorString "missing field") eq_refl).
Defined.

(** [NewClient] on the host ["openapi.m-pesa.com"]: the caller's [Config]
    holds the full URL afterwards. *)
Lemma NewClient_overwrites_BasePath :
  exists c σ' w' tr cfg',
    exec handler (NewClient 1%positive (Some tt) []) (store 5) granting =
      (Returned c, σ', w', tr) /\
    σ' !! 1%positive = Some cfg' /\
    Config.BasePath (conf 5) = "openapi.m-pesa.com" /\
    Config.BasePath cfg' = "https://openapi.m-pesa.com/sandbox/ipg/v2/vodacomTZN/" /\
    Config.BasePath cfg' <> Config.BasePath (conf 5).
Proof.
  do 5 eexists. split; [reflexivity|]. split; [reflexivity|].
  split; [reflexivity|]. split; [reflexivity|]. discriminate.
Qed.

Lemma Config_kept_but_BasePath_witness :
  (exists cfg',
     (exec handler (NewClient 1%positive (Some tt) [WithDebugMode]) (store 5) granting).1.1.2
       !! 1%positive = Some cfg' /\
     same_but_BasePath (conf 5) cfg') /\
  exists c σ' w' tr cfg',
    exec handler (NewClient 1%positive (Some tt) [WithDebugMode]) (store 5) granting =
      (Returned c, σ', w', tr) /\
    Client.Conf c = 1%positive /\
    σ' !! 1%positive = Some cfg' /\
    Config.BasePath cfg' = "https://openapi.m-pesa.com/sandbox/ipg/v2/vodacomTZN/" /\
    Config.BasePath cfg' <> "openapi.m-pesa.com" /\
    same_but_BasePath (conf 5) cfg' /\
    forall l, l <> 1%positive -> σ' !! l = store 5 !! l.
Proof.
  assert (Forall keeps_configs [WithDebugMode]) as Hconfigs.
  { constructor; [exact WithDebugMode_keeps_configs | constructor]. }
  assert (Forall keeps_Conf [WithDebugMode]) as HConf.
  { constructor; [exact WithDebugMode_keeps_Conf | constructor]. }
  assert (Forall sound_option [WithDebugMode]) as Hsound.
  { constructor; [exact WithDebugMode_sound | constructor]. }
  destruct (Config_kept_but_BasePath (F := funcs)) as (Hfields & _ & HBasePath).
  split.
  - exact (Hfields _ handler 1%positive (Some tt) [WithDebugMode] (store 5) granting
             Hconfigs 1%positive (conf 5) eq_refl).
  - exact (HBasePath _ handler 1%positive (Some tt) [WithDebugMode] (store 5) granting
             (conf 5) eq_refl Hconfigs HConf Hsound).
Defined.

Lemma NewClient_base_path_witness :
  exists c σ' w' tr cfg',
    exec handler (NewClient 1%positive (Some tt) [WithDebugMode]) (store 5) granting =
      (Returned c, σ', w', tr) /\
    σ' !! Client.Conf c = Some cfg' /\
    Config.BasePath cfg' =
      "https://" +:+ "openapi.m-pesa.com" +:+ "/" +:+
      Platform_String (Config.Platform cfg') +:+ "/ipg/v2/" +:+
      Market_URLContextValue (Config.Market cfg') +:+ "/".
Proof.
  apply (NewClient_base_path (F := funcs) handler 1%positive (Some tt)
           [WithDebugMode] (store 5) granting (conf 5)).
  - reflexivity.
  - constructor; [exact WithDebugMode_sound | constructor].
Defined.

(** Scenario D: the body cannot be decoded. *)
Lemma callback_undecodable_witness :
  exec handler (CallbackServeHTTP tt "{") (cached 5) undecodable =
    (Returned tt, cached 5, undecodable,
     [Ev (Receive tt "mpesa push callback" "{" "") ("{", Some (errorString "bad json"));
      Ev (http_Error tt "bad json" 500) tt]) /\
  Forall (fun ev => is_HandleCallback ev = false)
    (exec handler (CallbackServeHTTP tt "{") (cached 5) undecodable).2.
Proof.
  exact (callback_undecodable (F := funcs) handler tt "{" (cached 5) undecodable
           undecodable tt "{" (errorString "bad json") eq_refl eq_refl).
Defined.

(** Scenario E, and the same callback with a failing handler. *)
Lemma callback_reply_follows_handler_witness :
  exec handler (CallbackServeHTTP tt "paid") (cached 5) granting =
    (Returned tt, cached 5, granting,
     [Ev (Receive tt "mpesa push callback" "paid" "") ("paid", None);
      Ev (HandleCallback tt "paid") ("ack:paid", None);
      Ev (Reply tt tt
            (base_NewResponse 200 "ack:paid"
               [base_WithMoreResponseHeaders {[ "Content-Type" := "application/json" ]}]))
         tt]) /\
  exec handler (CallbackServeHTTP tt "paid") (cached 5) handler_failing =
    (Returned tt, cached 5, handler_failing,
     [Ev (Receive tt "mpesa push callback" "paid" "") ("paid", None);
      Ev (HandleCallback tt "paid") ("ack:paid", Some (errorString "unknown transaction"));
      Ev (http_Error tt "unknown transaction" 500) tt]).
Proof.
  split.
  - exact (proj1 (callback_reply_follows_handler (F := funcs) handler tt "paid"
             (cached 5) granting granting granting tt tt "paid" "ack:paid"
             eq_refl eq_refl eq_refl) tt eq_refl eq_refl).
  - exact (proj2 (callback_reply_follows_handler (F := funcs) handler tt "paid"
             (cached 5) handler_failing handler_failing handler_failing tt tt "paid"
             "ack:paid" eq_refl eq_refl eq_refl)
             (errorString "unknown transaction") eq_refl).
Defined.

(** A client built at instant 1000 and used at instant 1000: the first
    payment refreshes the session, stores ["S1"] and pays with it. *)
Lemma fresh_client_session_expired_witness :
  exists c σ' w' conf',
    exec handler (NewClient 1%positive (Some tt) [WithDebugMode]) (store 5) granting =
      (Returned c, σ', w', [Ev time_Now 1000]) /\
    Client.sessionExpiration c = 1000 /\
    Client.sessionID c = Some "" /\
    σ' !! Client.Conf c = Some conf' /\
    let stored :=
      mkState
        (Client.set_sessionID (Some "S1")
           (Client.set_sessionExpiration
              (1000 + wrap64 (Config.SessionLifetimeMinutes conf' * time_Minute)) c))
        σ' in
    let pay := Ev (encryptKey "S1" (Config.PublicKey conf')) ("rsa:S1", None) in
    ((exec handler (PushAsync "pay") (mkState c σ') granting).1.1.2 = stored /\
     exists e1 e2 e3 e4 rest,
       (exec handler (PushAsync "pay") (mkState c σ') granting).2 =
         e1 :: e2 :: e3 :: e4 :: pay :: rest) /\
    ((exec handler (Disburse "pay") (mkState c σ') granting).1.1.2 = stored /\
     exists e1 e2 e3 e4 rest,
       (exec handler (Disburse "pay") (mkState c σ') granting).2 =
         e1 :: e2 :: e3 :: e4 :: pay :: rest).
Proof.
  assert (Forall sound_option [WithDebugMode]) as Hsound.
  { constructor; [exact WithDebugMode_sound | constructor]. }
  assert (Forall keeps_session [WithDebugMode]) as Hsession.
  { constructor; [exact WithDebugMode_keeps_session | constructor]. }
  destruct (fresh_client_session_expired (F := funcs) handler 1%positive (Some tt)
              [WithDebugMode] (store 5) granting (conf 5) eq_refl Hsound Hsession)
    as (c & σ' & w' & conf' & b & Hexec & Hexp & Hid & Hconf & Hbase & Hrefresh).
  exists c, σ', w', conf'. split; [exact Hexec|]. split; [exact Hexp|].
  split; [exact Hid|]. split; [exact Hconf|].
  assert ((handler _ time_Now granting).1 <= (handler _ time_Now granting).1) as Hlater.
  { simpl. lia. }
  destruct (Hrefresh granting "pay" Hlater) as (_ & _ & Hkey).
  destruct (Hkey ("rsa:" +:+ Config.APIKey conf') granting eq_refl) as [_ Hgranted].
  pose proof (Hgranted (Answer "S1" "") (200, None) granting eq_refl eq_refl eq_refl)
    as Hruns.
  apply Forall_cons in Hruns as [[Hpush (rest1 & Htr1)] Hruns].
  apply Forall_cons in Hruns as [[Hdisburse (rest2 & Htr2)] _].
  intros stored pay. split.
  - split; [exact Hpush|]. do 4 eexists. exists rest1. exact Htr1.
  - split; [exact Hdisburse|]. do 4 eexists. exists rest2. exact Htr2.
Defined.

(** An option that installs the session ["S9"], valid until instant 2000:
    the client built at instant 1000 is not expired, and its first payment
    uses ["S9"] without asking the gateway for a session. *)
Lemma NewClient_option_sets_session :
  exists c σ' w' rest,
    exec handler (NewClient 1%positive (Some tt) [WithSession "S9" 2000]) (store 5)
      granting =
      (Returned c, σ', w', [Ev time_Now 1000]) /\
    Client.sessionExpiration c = 2000 /\
    Client.sessionExpiration c <> 1000 /\
    Client.sessionID c = Some "S9" /\
    Client.sessionID c <> Some "" /\
    (exec handler (PushAsync "pay") (mkState c σ') granting).1.1.1 =
      Returned (Answer "ref-1" "", None) /\
    (exec handler (PushAsync "pay") (mkState c σ') granting).1.1.2 = mkState c σ' /\
    (exec handler (PushAsync "pay") (mkState c σ') granting).2 =
      Ev time_Now 1000 :: Ev (encryptKey "S9" "public-key") ("rsa:S9", None) :: rest /\
    count is_base_Do (exec handler (PushAsync "pay") (mkState c σ') granting).2 = 1%nat.
Proof.
  do 4 eexists. split; [reflexivity|]. split; [reflexivity|].
  split; [discriminate|]. split; [reflexivity|]. split; [discriminate|].
  split; [reflexivity|]. split; [reflexivity|]. split; reflexivity.
Qed.

(** ** Runs for the further properties *)

Lemma WithDebugMode_keeps_pushCallbackFunc : keeps_pushCallbackFunc WithDebugMode.
Proof. intros s. reflexivity. Qed.

(** A malformed public key: nothing is sent. *)
Lemma SessionID_encryption_failure_witness :
  exec scripted SessionID (cached 5) bad_key =
    (Returned (Answer "" "", Some (errorString "invalid public key")),
     cached 5, bad_key,
     [Ev (encryptKey "api-key" "public-key")
         ("", Some (errorString "invalid public key"))]).
Proof.
  exact (SessionID_encryption_failure (F := funcs) scripted (cached 5) (cached 5)
           bad_key bad_key "" (errorString "invalid public key") _ eq_refl).
Defined.

(** The connection times out. *)
Lemma SessionID_transport_failure_witness :
  (exec scripted SessionID (cached 5) timing_out).1 =
    (Returned (Answer "" "", Some (errorString "context deadline exceeded")),
     cached 5, timing_out).
Proof.
  rewrite (SessionID_transport_failure (F := funcs) scripted (cached 5) (cached 5)
             timing_out timing_out timing_out false "rsa:api-key" _
             (Answer "" "") None (errorString "context deadline exceeded")
             eq_refl eq_refl eq_refl).
  reflexivity.
Defined.

(** The gateway answers 503 with an error object, around a decoded body
    that looks fine. *)
Lemma SessionID_gateway_error_witness :
  (exec scripted SessionID (cached 5) gateway_down).1 =
    (Returned
       (Answer "" "",
        Some (wrapError "could not fetch session id: service unavailable"
                (errorString "service unavailable"))),
     cached 5, gateway_down).
Proof.
  rewrite (SessionID_gateway_error (F := funcs) scripted (cached 5) (cached 5)
             gateway_down gateway_down gateway_down false "rsa:api-key" _
             (Answer "S1" "") (503, Some (errorString "service unavailable"))
             (errorString "service unavailable")
             eq_refl eq_refl eq_refl eq_refl).
  reflexivity.
Defined.

(** The gateway rejects the API key. *)
Lemma SessionID_business_error_witness :
  (exec handler SessionID (cached 5) rejecting).1 =
    (Returned
       (Answer "" "invalid key",
        Some (errorString "could not fetch session id: invalid key")),
     cached 5, rejecting).
Proof.
  assert (@OutputErr _ SessionResponse_gw (Answer "" "invalid key") <> "") as Hout.
  { discriminate. }
  rewrite (SessionID_business_error (F := funcs) handler (cached 5) (cached 5)
             rejecting rejecting rejecting false "rsa:api-key" _
             (Answer "" "invalid key") (200, None)
             eq_refl eq_refl eq_refl eq_refl Hout).
  reflexivity.
Defined.

(** The executor returns nothing at all. *)
Lemma SessionID_nil_response_panics_witness :
  (exec scripted SessionID (cached 5) silent).1 =
    (Panicked nil_dereference, cached 5, silent).
Proof.
  rewrite (SessionID_nil_response_panics (F := funcs) scripted (cached 5) (cached 5)
             silent silent silent false "rsa:api-key" _ (Answer "S1" "")
             eq_refl eq_refl eq_refl).
  reflexivity.
Defined.

(** Scenario A again, read from the caller's side. *)
Lemma SessionID_nil_error_witness :
  (exec handler SessionID (cached 5) granting).1.1.1 =
    Returned (Answer "S1" "", None) /\
  Client.sessionID (self (exec handler SessionID (cached 5) granting).1.1.2) =
    Some "S1" /\
  Client.sessionExpiration (self (exec handler SessionID (cached 5) granting).1.1.2) =
    1000 + wrap64 (5 * time_Minute).
Proof.
  split; [reflexivity|].
  assert (exec handler SessionID (cached 5) granting =
          (Returned (Answer "S1" "", None),
           (exec handler SessionID (cached 5) granting).1.1.2, granting,
           (exec handler SessionID (cached 5) granting).2)) as Hexec.
  { reflexivity. }
  destruct (SessionID_nil_error (F := funcs) handler (cached 5) _ granting granting
              (Answer "S1" "") _ Hexec)
    as (_ & Hid & _).
  split; [exact Hid|]. reflexivity.
Defined.

(** A lifetime of zero minutes: the session granted at instant 1000 expires
    at instant 1000. *)
Lemma SessionID_expiration_future_iff_witness :
  exists now,
    last (exec handler SessionID (cached 0) granting).2 = Some (Ev time_Now now) /\
    Client.sessionExpiration (self (exec handler SessionID (cached 0) granting).1.1.2) =
      now + 0 * time_Minute /\
    (now < Client.sessionExpiration
             (self (exec handler SessionID (cached 0) granting).1.1.2) <-> 0 < 0).
Proof.
  assert (int64_range (0 * time_Minute)) as Hfit.
  { unfold int64_range, time_Minute. lia. }
  assert (exec handler SessionID (cached 0) granting =
          (Returned (Answer "S1" "", None),
           (exec handler SessionID (cached 0) granting).1.1.2, granting,
           (exec handler SessionID (cached 0) granting).2)) as Hexec.
  { reflexivity. }
  assert (store 0 !! 1%positive = Some (conf 0)) as Hconf.
  { reflexivity. }
  exact (SessionID_expiration_future_iff (F := funcs) handler (cached 0) _
           granting granting (Answer "S1" "") _ (conf 0) Hexec Hconf Hfit).
Defined.

(** An accepted payment. *)
Lemma payment_nil_error_witness :
  (exec handler (PushAsync "pay") (cached 5) granting).1.1.1 =
    Returned (Answer "ref-1" "", None) /\
  (exec handler (Disburse "pay") (cached 5) granting).1.1.1 =
    Returned (Answer "ref-1" "", None) /\
  answer_err (Answer "ref-1" "") = "".
Proof.
  split; [reflexivity|]. split; [reflexivity|].
  assert (exec handler (PushAsync "pay") (cached 5) granting =
          (Returned (Answer "ref-1" "", None),
           (exec handler (PushAsync "pay") (cached 5) granting).1.1.2, granting,
           (exec handler (PushAsync "pay") (cached 5) granting).2)) as Hexec.
  { reflexivity. }
  exact (proj1 (proj1 (payment_nil_error (F := funcs) handler "pay" (cached 5) _
           granting granting _) (Answer "ref-1" "") Hexec)).
Defined.

(** The same callback on two clients that share nothing but the receiver,
    the handler and the replier. *)
Lemma callback_stateless_witness :
  exec handler (CallbackServeHTTP tt "paid")
    (mkState (Client.mk decls 7%positive None None None 0 (Some tt) None (Some tt) (Some tt)) ∅)
    granting =
  (Returned tt,
   mkState (Client.mk decls 7%positive None None None 0 (Some tt) None (Some tt) (Some tt)) ∅,
   granting,
   (exec handler (CallbackServeHTTP tt "paid") (cached 5) granting).2).
Proof.
  set (s' := mkState (Client.mk decls 7%positive None None None 0 (Some tt) None
                        (Some tt) (Some tt)) ∅).
  destruct (callback_stateless (F := funcs) handler tt "paid" (cached 5) s' granting)
    as [_ Hsame].
  destruct (Hsame eq_refl eq_refl eq_refl) as (Hout & Hworld & Htrace).
  rewrite <- Htrace. reflexivity.
Defined.

(** No configuration at address 2. *)
Lemma NewClient_nil_conf_panics_witness :
  exec handler (NewClient 2%positive (Some tt) [WithDebugMode]) (store 5) granting =
    (Panicked nil_dereference, store 5, granting, []).
Proof.
  exact (NewClient_nil_conf_panics (F := funcs) handler 2%positive (Some tt)
           [WithDebugMode] (store 5) granting eq_refl).
Defined.

Lemma NewClient_installs_collaborators_witness :
  exists c σ' w' tr cfg' cfg2 b,
    exec handler (NewClient 1%positive (Some tt) [WithDebugMode]) (store 5) granting =
      (Returned c, σ', w', tr) /\
    σ' !! Client.Conf c = Some cfg' /\
    σ' !! 1%positive = Some cfg2 /\
    Client.requestAdapter c =
      Some (requestAdapter.mk decls (Config.Platform cfg') (Config.Market cfg')
              (Config.ServiceProvideCode cfg2)) /\
    Client.base c = Some b /\
    Client.rp c = Some (base_NewReplier (Logger b) (DebugMode b)) /\
    Client.rv c = Some (base_NewReceiver (Logger b) (DebugMode b)).
Proof.
  apply (NewClient_installs_collaborators (F := funcs) handler 1%positive (Some tt)
           [WithDebugMode] (store 5) granting (conf 5)).
  - reflexivity.
  - constructor; [exact WithDebugMode_sound | constructor].
Defined.

(** Two clients on one configuration. *)
Lemma NewClient_twice_nests_base_path_witness :
  exists c1 c2 cfg2,
    (exec handler (NewClient 1%positive (Some tt) []) (store 5) granting).1.1.1 =
      Returned c1 /\
    (exec handler (NewClient 1%positive None [])
       (exec handler (NewClient 1%positive (Some tt) []) (store 5) granting).1.1.2
       (exec handler (NewClient 1%positive (Some tt) []) (store 5) granting).1.2).1.1.1 =
      Returned c2 /\
    Client.Conf c1 = 1%positive /\ Client.Conf c2 = 1%positive /\
    (exec handler (NewClient 1%positive None [])
       (exec handler (NewClient 1%positive (Some tt) []) (store 5) granting).1.1.2
       (exec handler (NewClient 1%positive (Some tt) []) (store 5) granting).1.2).1.1.2
      !! 1%positive = Some cfg2 /\
    Config.BasePath cfg2 =
      "https://https://openapi.m-pesa.com/sandbox/ipg/v2/vodacomTZN//sandbox/ipg/v2/vodacomTZN/".
Proof.
  exact (NewClient_twice_nests_base_path (F := funcs) handler 1%positive (Some tt) None
           (store 5) granting (conf 5) eq_refl).
Defined.

Lemma fresh_client_serves_callbacks_witness :
  exists c σ' w' tr,
    exec handler (NewClient 1%positive (Some tt) [WithDebugMode]) (store 5) granting =
      (Returned c, σ', w', tr) /\
    is_Some (Client.rv c) /\
    Client.pushCallbackFunc c = Some tt /\
    is_Some (Client.rp c) /\
    (exec handler (CallbackServeHTTP tt "paid") (mkState c σ') undecodable).1.1.1 =
      Returned tt.
Proof.
  assert (Forall sound_option [WithDebugMode]) as Hsound.
  { constructor; [exact WithDebugMode_sound | constructor]. }
  assert (Forall keeps_pushCallbackFunc [WithDebugMode]) as Hkeeps.
  { constructor; [exact WithDebugMode_keeps_pushCallbackFunc | constructor]. }
  destruct (fresh_client_serves_callbacks (F := funcs) handler 1%positive tt
              [WithDebugMode] (store 5) granting (conf 5) eq_refl Hsound Hkeeps)
    as (c & σ' & w' & tr & Hexec & Hrv & Hhd & Hrp & Hserves).
  exists c, σ', w', tr. split; [exact Hexec|]. split; [exact Hrv|].
  split; [exact Hhd|]. split; [exact Hrp|]. apply Hserves.
Defined.

Lemma NewClient_always_rewrites_BasePath_witness :
  exists c σ' w' tr cfg',
    exec handler (NewClient 1%positive (Some tt) [WithDebugMode]) (store 5) granting =
      (Returned c, σ', w', tr) /\
    σ' !! 1%positive = Some cfg' /\
    (String.length "openapi.m-pesa.com" < String.length (Config.BasePath cfg'))%nat /\
    Config.BasePath cfg' <> "openapi.m-pesa.com".
Proof.
  apply (NewClient_always_rewrites_BasePath (F := funcs) handler 1%positive (Some tt)
           [WithDebugMode] (store 5) granting (conf 5)).
  - reflexivity.
  - constructor; [exact WithDebugMode_sound | constructor].
  - constructor; [exact WithDebugMode_keeps_Conf | constructor].
Defined.

End Scenarios.
